(** * Bank-account exercise: a shallow embedding of the withdrawal rules

    The development follows [desafio_bancario_otimizado.py] (the object
    model: [Historico], [Saque], [Deposito], [Conta], [ContaCorrente],
    [Cliente]) and [desafio.py] (the earlier procedural version of
    [depositar] and [sacar]).

    Amounts are Python floats, that is IEEE 754 binary64 numbers: they are
    embedded as Rocq's primitive [float], whose operations are the same
    binary64 operations (round to nearest even), with NaN and the
    infinities.  Python objects are mutated in place; the embedding threads
    the account, the system clock and the printed messages through a small
    state monad. *)

From Stdlib Require Import Floats ZArith List String Ascii Bool Lia.
From Stdlib Require Import DecimalString.
Import ListNotations.


(** ** Dates and times

    [datetime.now()] yields a date and a time of day; [.date()] keeps the
    date.  Two [date] objects are equal when year, month and day agree. *)

Record date := mk_date { year : Z; month : Z; day : Z }.

Record datetime := mk_datetime
  { dt_date : date; hour : Z; minute : Z; second : Z }.

Definition date_eqb (a b : date) : bool :=
  (year a =? year b)%Z && (month a =? month b)%Z && (day a =? day b)%Z.

(** ** Library calls

    The program calls routines of the Python library whose code is not
    part of the repository.  They are taken as an interface:
    - [str_lower s] is [s.lower()];
    - [strftime d] is [d.strftime("%d-%m-%Y %H:%M:%S")];
    - [strptime s] is [datetime.strptime(s, "%d-%m-%Y %H:%M:%S")], with
      [None] standing for the [ValueError] it raises on a malformed string;
    - [format_2f v] is the text of [f"{v:.2f}"]. *)

Class PyLib := {
  str_lower : string -> string;
  strftime : datetime -> string;
  strptime : string -> option datetime;
  format_2f : float -> string
}.

(** ** Data model *)

(** One entry of [Historico._transacoes]: the dict with keys ["tipo"],
    ["valor"] and ["data"]. *)
Record registro := mk_registro
  { tipo : string; valor : float; data : string }.

(** The two concrete subclasses of [Transacao], each holding [_valor]. *)
Inductive Transacao :=
| Saque (_valor : float)
| Deposito (_valor : float).

(** [transacao.valor] *)
Definition Transacao_valor (t : Transacao) : float :=
  match t with Saque v => v | Deposito v => v end.

(** [transacao.__class__.__name__] *)
Definition class_name (t : Transacao) : string :=
  match t with Saque _ => "Saque" | Deposito _ => "Deposito" end%string.

(** The class of an account object.  A [ContaCorrente] carries [_limite]
    and [_limite_saques] on top of the fields of [Conta]. *)
Inductive Classe :=
| ClasseConta
| ClasseContaCorrente (_limite : float) (_limite_saques : Z).

(** An account object: [_saldo], [_numero], [_historico] (the list behind
    the [Historico] object) and its class.  The back reference [_cliente]
    is read by [__str__] only and is left out. *)
Record Conta := mk_Conta
  { saldo : float; numero : Z; historico : list registro; classe : Classe }.

(** [Conta.__init__] and [ContaCorrente.__init__]: balance [0.0], empty
    history. *)
Definition Conta_init (n : Z) : Conta :=
  {| saldo := 0%float; numero := n; historico := []; classe := ClasseConta |}.

Definition ContaCorrente_init (n : Z) (limite : float) (limite_saques : Z)
  : Conta :=
  {| saldo := 0%float; numero := n; historico := [];
     classe := ClasseContaCorrente limite limite_saques |}.

(** [Cliente]: the address and the numbers of the accounts it owns. *)
Record Cliente := mk_Cliente { endereco : string; contas : list Z }.

(** The messages the account operations print. *)
Inductive Mensagem :=
| MsgValorInvalido        (* Operação falhou! O valor informado é inválido. *)
| MsgSaldoInsuficiente    (* Operação falhou! Você não tem saldo suficiente. *)
| MsgSaqueRealizado       (* Saque realizado com sucesso! *)
| MsgDepositoRealizado    (* Depósito realizado com sucesso! *)
| MsgExcedeLimite         (* Operação falhou! O valor do saque excede o limite. *)
| MsgExcedeSaques         (* Operação falhou! Número máximo de saques excedido. *)
| MsgExcedeTransacoes.    (* Você excedeu o número de transações permitidas para hoje! *)

(** ** The state the methods act on

    [conta] is the account object the call is made on; [relogio] is the
    system clock as the sequence of values that successive calls of
    [datetime.now()] return, [tique] counting the calls made so far;
    [saida] collects what [print] wrote, oldest first. *)
Record Mundo := mk_Mundo
  { conta : Conta; relogio : nat -> datetime; tique : nat;
    saida : list Mensagem }.

Definition M (A : Type) : Type := Mundo -> A * Mundo.

Definition ret {A} (a : A) : M A := fun w => (a, w).

Definition bind {A B} (m : M A) (f : A -> M B) : M B :=
  fun w => let (a, w') := m w in f a w'.

Declare Scope py_scope.
Delimit Scope py_scope with py.
Notation "x <- c1 ;; c2" := (bind c1 (fun x => c2))
  (at level 100, c1 at next level, right associativity) : py_scope.
Notation "c1 ;; c2" := (bind c1 (fun _ => c2))
  (at level 100, right associativity) : py_scope.
Open Scope py_scope.

(** [datetime.now()] *)
Definition now : M datetime :=
  fun w => (relogio w (tique w),
            {| conta := conta w; relogio := relogio w;
               tique := S (tique w); saida := saida w |}).

(** [print(...)] *)
Definition print (m : Mensagem) : M unit :=
  fun w => (tt, {| conta := conta w; relogio := relogio w;
                   tique := tique w; saida := saida w ++ [m] |}).

Definition get_conta : M Conta := fun w => (conta w, w).

Definition put_conta (c : Conta) : M unit :=
  fun w => (tt, {| conta := c; relogio := relogio w;
                   tique := tique w; saida := saida w |}).

(** Reading and assigning [self._saldo]. *)
Definition get_saldo : M float := c <- get_conta ;; ret (saldo c).

Definition set_saldo (s : float) : M unit :=
  c <- get_conta ;;
  put_conta {| saldo := s; numero := numero c;
               historico := historico c; classe := classe c |}.

(** Reading [self._transacoes] and [self._transacoes.append(r)]. *)
Definition get_transacoes : M (list registro) :=
  c <- get_conta ;; ret (historico c).

Definition append_transacao (r : registro) : M unit :=
  c <- get_conta ;;
  put_conta {| saldo := saldo c; numero := numero c;
               historico := historico c ++ [r]; classe := classe c |}.

(** ** class Historico *)
Module Historico.
Section WithLib.
Context {L : PyLib}.

(** [adicionar_transacao]: appends the dict built from the class name,
    the amount and the formatted current time. *)
Definition adicionar_transacao (transacao : Transacao) : M unit :=
  agora <- now ;;
  append_transacao
    {| tipo := class_name transacao;
       valor := Transacao_valor transacao;
       data := strftime agora |}.

(** The test of the [if] in [gerar_relatorio]. *)
Definition seleciona (tipo_transacao : option string) (transacao : registro)
  : bool :=
  match tipo_transacao with
  | None => true
  | Some t => String.eqb (str_lower (tipo transacao)) (str_lower t)
  end.

(** The generator's loop over [self._transacoes]: the records a complete
    iteration yields, in the order it yields them. *)
Fixpoint gerar (tipo_transacao : option string) (transacoes : list registro)
  : list registro :=
  match transacoes with
  | [] => []
  | transacao :: resto =>
      if seleciona tipo_transacao transacao
      then transacao :: gerar tipo_transacao resto
      else gerar tipo_transacao resto
  end.

Definition gerar_relatorio (tipo_transacao : option string)
  : M (list registro) :=
  ts <- get_transacoes ;; ret (gerar tipo_transacao ts).

(** One turn of the loop of [transacoes_do_dia]: the record is appended
    when its date parses and is [data_atual]; a [ValueError] skips it. *)
Definition passo_do_dia (data_atual : date) (acc : list registro)
  (transacao : registro) : list registro :=
  match strptime (data transacao) with
  | Some d =>
      if date_eqb data_atual (dt_date d) then acc ++ [transacao] else acc
  | None => acc
  end.

Definition transacoes_do_dia : M (list registro) :=
  agora <- now ;;
  let data_atual := dt_date agora in
  ts <- get_transacoes ;;
  ret (fold_left (passo_do_dia data_atual) ts []).

End WithLib.
End Historico.

(** ** class Conta *)
Module Conta.

Definition sacar (valor : float) : M bool :=
  if (valor <=? 0)%float then
    print MsgValorInvalido ;; ret false
  else
    s <- get_saldo ;;
    if (s <? valor)%float then
      print MsgSaldoInsuficiente ;; ret false
    else
      set_saldo (s - valor)%float ;;
      print MsgSaqueRealizado ;;
      ret true.

Definition depositar (valor : float) : M bool :=
  if (valor <=? 0)%float then
    print MsgValorInvalido ;; ret false
  else
    s <- get_saldo ;;
    set_saldo (s + valor)%float ;;
    print MsgDepositoRealizado ;;
    ret true.

End Conta.

(** ** class ContaCorrente *)
Module ContaCorrente.
Section WithLib.
Context {L : PyLib}.

(** [len(saques_do_dia)] for a list of today's records. *)
Definition numero_saques (do_dia : list registro) : nat :=
  List.length (filter (fun t => String.eqb (tipo t) "Saque") do_dia).

(** The overriding [sacar], on an object whose [_limite] and
    [_limite_saques] are the two first arguments. *)
Definition sacar (limite : float) (limite_saques : Z) (valor : float)
  : M bool :=
  do_dia <- Historico.transacoes_do_dia ;;
  let n := numero_saques do_dia in
  if (limite <? valor)%float then
    print MsgExcedeLimite ;; ret false
  else if (limite_saques <=? Z.of_nat n)%Z then
    print MsgExcedeSaques ;; ret false
  else
    Conta.sacar valor.

End WithLib.
End ContaCorrente.

(** ** Method dispatch on the account's class *)
Section Metodos.
Context {L : PyLib}.

(** [conta.sacar(valor)] *)
Definition conta_sacar (valor : float) : M bool :=
  c <- get_conta ;;
  match classe c with
  | ClasseConta => Conta.sacar valor
  | ClasseContaCorrente limite limite_saques =>
      ContaCorrente.sacar limite limite_saques valor
  end.

(** [conta.depositar(valor)]: [ContaCorrente] inherits it. *)
Definition conta_depositar (valor : float) : M bool :=
  Conta.depositar valor.

End Metodos.

(** ** classes Saque and Deposito *)
Module Saque.
Section WithLib.
Context {L : PyLib}.

Definition registrar (self : Transacao) : M bool :=
  sucesso_transacao <- conta_sacar (Transacao_valor self) ;;
  (if sucesso_transacao : bool
   then Historico.adicionar_transacao self
   else ret tt) ;;
  ret sucesso_transacao.

End WithLib.
End Saque.

Module Deposito.
Section WithLib.
Context {L : PyLib}.

Definition registrar (self : Transacao) : M bool :=
  sucesso_transacao <- conta_depositar (Transacao_valor self) ;;
  (if sucesso_transacao : bool
   then Historico.adicionar_transacao self
   else ret tt) ;;
  ret sucesso_transacao.

End WithLib.
End Deposito.

Section Registrar.
Context {L : PyLib}.

(** [transacao.registrar(conta)] *)
Definition transacao_registrar (transacao : Transacao) : M bool :=
  match transacao with
  | Saque _ => Saque.registrar transacao
  | Deposito _ => Deposito.registrar transacao
  end.

End Registrar.

(** ** class Cliente

    [realizar_transacao(self, conta, transacao)]: the account argument is
    the account of the world the call runs in. *)
Module Cliente.
Section WithLib.
Context {L : PyLib}.

Definition realizar_transacao (self : Cliente) (transacao : Transacao)
  : M bool :=
  do_dia <- Historico.transacoes_do_dia ;;
  if (2 <=? List.length do_dia)%nat then
    print MsgExcedeTransacoes ;; ret false
  else
    transacao_registrar transacao.

End WithLib.
End Cliente.

(** ** desafio.py: the procedural version

    The functions take the balance, the statement text and the counters and
    return their new values; the message they print is returned next to
    them.  The messages are named by their meaning (the wording of the two
    files differs slightly).  The script starts from the integers [0] and
    [500], which Python compares and adds to a float as [0.0] and [500.0]:
    balance and limit are floats here. *)
Module Desafio.
Section WithLib.
Context {L : PyLib}.

Definition nl : string := String "010" EmptyString.

Definition depositar (saldo : float) (extrato : string) (valor : float)
  : (float * string) * Mensagem :=
  if (0 <? valor)%float then
    (((saldo + valor)%float,
      (extrato ++ "Depósito: R$ " ++ format_2f valor ++ nl)%string),
     MsgDepositoRealizado)
  else
    ((saldo, extrato), MsgValorInvalido).

Definition sacar (saldo : float) (extrato : string) (numero_saques : Z)
  (valor limite : float) (limite_saques : Z)
  : (float * string * Z) * Mensagem :=
  let excedeu_saldo := (saldo <? valor)%float in
  let excedeu_limite := (limite <? valor)%float in
  let excedeu_saques := (limite_saques <=? numero_saques)%Z in
  if excedeu_saldo then
    ((saldo, extrato, numero_saques), MsgSaldoInsuficiente)
  else if excedeu_limite then
    ((saldo, extrato, numero_saques), MsgExcedeLimite)
  else if excedeu_saques then
    ((saldo, extrato, numero_saques), MsgExcedeSaques)
  else if (0 <? valor)%float then
    (((saldo - valor)%float,
      (extrato ++ "Saque: R$ " ++ format_2f valor ++ nl)%string,
      (numero_saques + 1)%Z),
     MsgSaqueRealizado)
  else
    ((saldo, extrato, numero_saques), MsgValorInvalido).

End WithLib.
End Desafio.

(** ** Sequences of operations on one account *)

(** What a caller can do to an account: call [conta.sacar(valor)] or
    [conta.depositar(valor)], or go through
    [cliente.realizar_transacao(conta, transacao)] as the menu does. *)
Inductive Operacao :=
| OpSacar (valor : float)
| OpDepositar (valor : float)
| OpRealizar (cliente : Cliente) (transacao : Transacao).

Section Operacoes.
Context {L : PyLib}.

Definition executar (op : Operacao) : M bool :=
  match op with
  | OpSacar v => conta_sacar v
  | OpDepositar v => conta_depositar v
  | OpRealizar c t => Cliente.realizar_transacao c t
  end.

Fixpoint executar_todas (ops : list Operacao) : M unit :=
  match ops with
  | [] => ret tt
  | op :: resto => executar op ;; executar_todas resto
  end.

(** The account method a transaction calls when it is registered. *)
Definition operacao_da_conta (t : Transacao) : M bool :=
  match t with
  | Saque v => conta_sacar v
  | Deposito v => conta_depositar v
  end.

(** The record [adicionar_transacao] builds for [t] at the time [agora]. *)
Definition registro_de (t : Transacao) (agora : datetime) : registro :=
  {| tipo := class_name t; valor := Transacao_valor t;
     data := strftime agora |}.

(** Whether a record counts for the day [d]: its date text parses and the
    date is [d]. *)
Definition eh_do_dia (d : date) (t : registro) : bool :=
  match strptime (data t) with
  | Some dt => date_eqb d (dt_date dt)
  | None => false
  end.

(** The records of [h] of the day [d], and the withdrawals among them. *)
Definition do_dia (d : date) (h : list registro) : list registro :=
  filter (eh_do_dia d) h.

Definition saques_do_dia (d : date) (h : list registro) : nat :=
  ContaCorrente.numero_saques (do_dia d h).

End Operacoes.

(** The world an account starts in and the two ways a call leaves the
    account untouched: one more reading of the clock, one more message. *)
Definition mundo_inicial (c : Conta) (r : nat -> datetime) : Mundo :=
  {| conta := c; relogio := r; tique := 0; saida := [] |}.

Definition hoje (w : Mundo) : date := dt_date (relogio w (tique w)).

Definition apos_relogio (w : Mundo) : Mundo :=
  {| conta := conta w; relogio := relogio w; tique := S (tique w);
     saida := saida w |}.

Definition com_mensagem (w : Mundo) (m : Mensagem) : Mundo :=
  {| conta := conta w; relogio := relogio w; tique := tique w;
     saida := saida w ++ [m] |}.

Definition com_saldo (w : Mundo) (s : float) : Mundo :=
  {| conta := {| saldo := s; numero := numero (conta w);
                 historico := historico (conta w);
                 classe := classe (conta w) |};
     relogio := relogio w; tique := tique w; saida := saida w |}.

(** The sign test used for the balance: [s < 0] as Python evaluates it. *)
Definition negativo (s : float) : bool := (s <? 0)%float.

(** ** A reference instance of the library interface

    It covers what the program itself produces and reads: ASCII letters for
    [lower], timestamps of years 1000 to 9999 in the fixed-width layout
    that [strftime] writes, and the two-decimal text of a float rounded
    half to even on its exact value. *)
Module RefLib.

Definition lower_ascii (c : ascii) : ascii :=
  let n := nat_of_ascii c in
  if ((65 <=? n) && (n <=? 90))%nat then ascii_of_nat (n + 32) else c.

Fixpoint lower (s : string) : string :=
  match s with
  | EmptyString => EmptyString
  | String c r => String (lower_ascii c) (lower r)
  end.

Definition digito (n : Z) : ascii := ascii_of_nat (48 + Z.to_nat (n mod 10)).

Definition dois_digitos (n : Z) : string :=
  String (digito (n / 10)) (String (digito n) EmptyString).

Definition quatro_digitos (n : Z) : string :=
  (dois_digitos (n / 100) ++ dois_digitos n)%string.

Definition formata (d : datetime) : string :=
  (dois_digitos (day (dt_date d)) ++ "-" ++
   dois_digitos (month (dt_date d)) ++ "-" ++
   quatro_digitos (year (dt_date d)) ++ " " ++
   dois_digitos (hour d) ++ ":" ++ dois_digitos (minute d) ++ ":" ++
   dois_digitos (second d))%string.

Definition valor_digito (c : ascii) : option Z :=
  let n := nat_of_ascii c in
  if ((48 <=? n) && (n <=? 57))%nat then Some (Z.of_nat (n - 48)) else None.

Fixpoint numero_de (cs : list ascii) (acc : Z) : option Z :=
  match cs with
  | [] => Some acc
  | c :: r =>
      match valor_digito c with
      | Some v => numero_de r (10 * acc + v)%Z
      | None => None
      end
  end.

Definition bissexto (y : Z) : bool :=
  ((y mod 4 =? 0) && (negb (y mod 100 =? 0) || (y mod 400 =? 0)))%Z.

Definition dias_no_mes (y m : Z) : Z :=
  if (m =? 2)%Z then (if bissexto y then 29 else 28)%Z
  else if ((m =? 4) || (m =? 6) || (m =? 9) || (m =? 11))%Z then 30%Z
  else 31%Z.

Definition interpreta (s : string) : option datetime :=
  match list_ascii_of_string s with
  | [d1; d2; s1; m1; m2; s2; y1; y2; y3; y4; s3; h1; h2; s4; n1; n2; s5;
     c1; c2] =>
      if (Ascii.eqb s1 "-" && Ascii.eqb s2 "-" && Ascii.eqb s3 " " &&
          Ascii.eqb s4 ":" && Ascii.eqb s5 ":")%bool
      then
        match numero_de [d1; d2] 0, numero_de [m1; m2] 0,
              numero_de [y1; y2; y3; y4] 0, numero_de [h1; h2] 0,
              numero_de [n1; n2] 0, numero_de [c1; c2] 0 with
        | Some d, Some m, Some y, Some h, Some n, Some c =>
            if ((1 <=? m) && (m <=? 12) && (1 <=? d) &&
                (d <=? dias_no_mes y m) && (1 <=? y) &&
                (h <? 24) && (n <? 60) && (c <? 62))%Z
            then Some {| dt_date := {| year := y; month := m; day := d |};
                         hour := h; minute := n; second := c |}
            else None
        | _, _, _, _, _, _ => None
        end
      else None
  | _ => None
  end.

Definition decimal (n : Z) : string :=
  DecimalString.NilZero.string_of_uint (N.to_uint (Z.to_N n)).

(** [m * 2^e * 100] rounded to an integer, ties to even. *)
Definition centesimos (m : positive) (e : Z) : Z :=
  if (0 <=? e)%Z then (Zpos m * 100 * 2 ^ e)%Z
  else
    let den := (2 ^ (- e))%Z in
    let q := (Zpos m * 100 / den)%Z in
    let r := (Zpos m * 100 mod den)%Z in
    match (2 * r ?= den)%Z with
    | Lt => q
    | Gt => (q + 1)%Z
    | Eq => if Z.even q then q else (q + 1)%Z
    end.

Definition sinal (s : bool) : string := if s then "-"%string else ""%string.

Definition duas_casas (v : float) : string :=
  match Prim2SF v with
  | S754_nan => "nan"
  | S754_infinity s => sinal s ++ "inf"
  | S754_zero s => sinal s ++ "0.00"
  | S754_finite s m e =>
      let c := centesimos m e in
      sinal s ++ decimal (c / 100) ++ "." ++ dois_digitos (c mod 100)
  end%string.

#[export] Instance lib : PyLib :=
  {| str_lower := lower; strftime := formata; strptime := interpreta;
     format_2f := duas_casas |}.

(** A clock that stays at one instant, and a current account with the
    limits the menu gives every account (500.00 a withdrawal, 3 a day),
    for the examples. *)
Definition meio_dia : datetime :=
  {| dt_date := {| year := 2024; month := 5; day := 17 |};
     hour := 12; minute := 0; second := 0 |}.

Definition relogio_parado : nat -> datetime := fun _ => meio_dia.

Definition conta_exemplo (s : float) (h : list registro) : Conta :=
  {| saldo := s; numero := 1; historico := h;
     classe := ClasseContaCorrente 500 3 |}.

Definition mundo_exemplo (s : float) (h : list registro) : Mundo :=
  mundo_inicial (conta_exemplo s h) relogio_parado.

Definition cliente_exemplo : Cliente := mk_Cliente "Rua A, 1" [1%Z].

End RefLib.

(** * The rest of the program: the menu and its commands *)

(** ** More library calls

    [str_strip s] is [s.strip()] and [parse_float s] is [float(s)], with
    [None] standing for the [ValueError] it raises. *)
Class PyShellLib := {
  str_strip : string -> string;
  parse_float : string -> option float
}.

(** The two messages that report a transaction as made. *)
Definition mensagem_de_sucesso (m : Mensagem) : bool :=
  match m with
  | MsgSaqueRealizado | MsgDepositoRealizado => true
  | _ => false
  end.

(** [s.replace(c, "")] for a one-character [c]. *)
Fixpoint remove_char (c : ascii) (s : string) : string :=
  match s with
  | EmptyString => EmptyString
  | String a r =>
      if Ascii.eqb a c then remove_char c r else String a (remove_char c r)
  end.

(** [l[i] = x] on a list, for an index inside it. *)
Fixpoint atualiza {A : Type} (i : nat) (x : A) (l : list A) : list A :=
  match l, i with
  | [], _ => []
  | _ :: r, O => x :: r
  | y :: r, S j => y :: atualiza j x r
  end.

(** ** desafio.py: the loop of the script *)
Module Script.

(** What the script prints: the message of [depositar] or [sacar], the
    statement ([None] for the line that says there were no movements), the
    farewell, the complaint about an unknown option. *)
Inductive Saida :=
| SMensagem (m : Mensagem)
| SExtrato (corpo : option string) (saldo : float)
| SDespedida
| SOperacaoInvalida.

(** The variables [saldo], [extrato] and [numero_saques] of the script,
    and what it has printed. *)
Record Estado := mk_Estado
  { saldo : float; extrato : string; numero_saques : Z;
    impresso : list Saida }.

(** How the run ends: the option [q], or an exception nobody catches:
    [EOFError] from [input] at the end of the input, [ValueError] from
    [float]. *)
Inductive Fim := Saiu | EOFError | ValueError.

Definition limite : float := 500%float.
Definition LIMITE_SAQUES : Z := 3.

Definition inicial : Estado :=
  {| saldo := 0%float; extrato := ""; numero_saques := 0; impresso := [] |}.

(** [exibir_extrato(saldo, extrato)] *)
Definition exibir_extrato (saldo : float) (extrato : string) : Saida :=
  SExtrato (if String.eqb extrato "" then None else Some extrato) saldo.

(** Whether a printed line reports a withdrawal, or a deposit or a
    withdrawal, as made; and how many of the lines printed report a
    withdrawal as made. *)
Definition eh_saque_realizado (s : Saida) : bool :=
  match s with SMensagem MsgSaqueRealizado => true | _ => false end.

Definition eh_movimento (s : Saida) : bool :=
  match s with
  | SMensagem MsgSaqueRealizado | SMensagem MsgDepositoRealizado => true
  | _ => false
  end.

Definition saques_realizados (l : list Saida) : nat :=
  List.length (filter eh_saque_realizado l).

(** The statement text is empty exactly when no deposit or withdrawal has
    been reported as made, and every statement printed so far was printed
    accordingly. *)
Definition coerente (st : Estado) : Prop :=
  String.eqb (extrato st) "" = negb (existsb eh_movimento (impresso st)) /\
  forall pre corpo s post,
    impresso st = pre ++ SExtrato corpo s :: post ->
    (corpo = None <-> existsb eh_movimento pre = false).

Section WithLib.
Context {L : PyLib} {T : PyShellLib}.

(** The branches [d] and [s] once the amount is read. *)
Definition opcao_d (st : Estado) (valor : float) : Estado :=
  let '((saldo', extrato'), m) :=
    Desafio.depositar (saldo st) (extrato st) valor in
  {| saldo := saldo'; extrato := extrato';
     numero_saques := numero_saques st;
     impresso := impresso st ++ [SMensagem m] |}.

Definition opcao_s (st : Estado) (valor : float) : Estado :=
  let '((saldo', extrato', numero_saques'), m) :=
    Desafio.sacar (saldo st) (extrato st) (numero_saques st) valor limite
      LIMITE_SAQUES in
  {| saldo := saldo'; extrato := extrato';
     numero_saques := numero_saques';
     impresso := impresso st ++ [SMensagem m] |}.

Definition imprime (st : Estado) (s : Saida) : Estado :=
  {| saldo := saldo st; extrato := extrato st;
     numero_saques := numero_saques st; impresso := impresso st ++ [s] |}.

(** The [while True] loop, on the lines [input] will return.  Every turn
    reads at least one line, so the loop is a recursion on them. *)
Fixpoint loop (entrada : list string) (st : Estado) : Fim * Estado :=
  match entrada with
  | [] => (EOFError, st)
  | linha :: resto =>
      let opcao := str_lower linha in
      if String.eqb opcao "d" then
        match resto with
        | [] => (EOFError, st)
        | texto :: resto' =>
            match parse_float texto with
            | None => (ValueError, st)
            | Some valor => loop resto' (opcao_d st valor)
            end
        end
      else if String.eqb opcao "s" then
        match resto with
        | [] => (EOFError, st)
        | texto :: resto' =>
            match parse_float texto with
            | None => (ValueError, st)
            | Some valor => loop resto' (opcao_s st valor)
            end
        end
      else if String.eqb opcao "e" then
        loop resto (imprime st (exibir_extrato (saldo st) (extrato st)))
      else if String.eqb opcao "q" then
        (Saiu, imprime st SDespedida)
      else
        loop resto (imprime st SOperacaoInvalida)
  end.

Definition main (entrada : list string) : Fim * Estado :=
  loop entrada inicial.

End WithLib.
End Script.

(** ** desafio_bancario_otimizado.py: clients, iterator, commands *)

(** [PessoaFisica]: a [Cliente] with a name, a birth date and a CPF. *)
Record PessoaFisica := mk_PessoaFisica
  { como_cliente : Cliente; nome : string; data_nascimento : string;
    cpf : string }.

(** [Cliente.adicionar_conta]: [self.contas.append(conta)], the account
    object being referred to by [ref]. *)
Definition Cliente_adicionar_conta (self : Cliente) (ref : Z) : Cliente :=
  {| endereco := endereco self; contas := contas self ++ [ref] |}.

Definition PessoaFisica_adicionar_conta (self : PessoaFisica) (ref : Z)
  : PessoaFisica :=
  {| como_cliente := Cliente_adicionar_conta (como_cliente self) ref;
     nome := nome self; data_nascimento := data_nascimento self;
     cpf := cpf self |}.

(** [ContasIterador]: the list it walks and [_index].  [__next__] returns
    [str(conta)]; the account stands for that text. *)
Record ContasIterador := mk_ContasIterador
  { it_contas : list Conta; _index : nat }.

Definition ContasIterador_init (contas : list Conta) : ContasIterador :=
  {| it_contas := contas; _index := 0 |}.

(** [__next__]: [None] is [StopIteration]. *)
Definition ContasIterador_next (self : ContasIterador)
  : option (Conta * ContasIterador) :=
  if (List.length (it_contas self) <=? _index self)%nat then None
  else
    match nth_error (it_contas self) (_index self) with
    | Some conta =>
        Some (conta,
              {| it_contas := it_contas self; _index := S (_index self) |})
    | None => None
    end.

(** A [for] loop over the iterator: [__next__] is called until it stops.
    [fuel] bounds the number of turns. *)
Fixpoint percorrer (fuel : nat) (it : ContasIterador) : list Conta :=
  match fuel with
  | O => []
  | S f =>
      match ContasIterador_next it with
      | None => []
      | Some (conta, it') => conta :: percorrer f it'
      end
  end.

(** [filtrar_cliente]: the first client of the list with the given CPF,
    with its position in the list (the object and where it lives). *)
Fixpoint filtrar_cliente_desde (i : nat) (cpf_procurado : string)
  (clientes : list PessoaFisica) : option (nat * PessoaFisica) :=
  match clientes with
  | [] => None
  | cliente :: resto =>
      if String.eqb (cpf cliente) cpf_procurado then Some (i, cliente)
      else filtrar_cliente_desde (S i) cpf_procurado resto
  end.

Definition filtrar_cliente (cpf_procurado : string)
  (clientes : list PessoaFisica) : option (nat * PessoaFisica) :=
  filtrar_cliente_desde 0 cpf_procurado clientes.

(** What the commands print.  [DaConta m] is a message of an account
    method; [Log f agora] is the line the decorator [log_transacao] writes
    after the function named [f] has run.  The prompts of [input] are not
    recorded. *)
Inductive Linha :=
| DaConta (m : Mensagem)
| ClienteNaoEncontrado
| ValorDevePositivo
| ValorInvalido
| ClienteSemConta
| ExtratoCabecalho
| ExtratoVazio
| ExtratoLinhas (ts : list registro)
| ExtratoSaldo (s : float)
| ExtratoRodape
| ClienteJaExiste
| ClienteCriado
| ContaSemCliente
| ContaCriada
| Separador
| ContaStr (c : Conta)
| SemContas
| Despedida
| OperacaoInvalida
| Log (f : string) (agora : datetime).

(** The state of [main]: the lists [clientes] and [contas], the clock (as
    in [Mundo]), what was printed and the lines [input] will return.

    An account object is referred to by its position, counted from 1, in
    [b_contas], the list that receives every account when it is created;
    the list [contas] of a client holds such references. *)
Record Banco := mk_Banco
  { b_clientes : list PessoaFisica; b_contas : list Conta;
    b_relogio : nat -> datetime; b_tique : nat;
    b_saida : list Linha; b_entrada : list string }.

(** The bank after more lines were printed. *)
Definition com_saida (b : Banco) (out : list Linha) : Banco :=
  {| b_clientes := b_clientes b; b_contas := b_contas b;
     b_relogio := b_relogio b; b_tique := b_tique b;
     b_saida := b_saida b ++ out; b_entrada := b_entrada b |}.

(** A command returns a value, or raises an exception nobody catches
    ([None]: the [EOFError] of [input] at the end of the input). *)
Definition Sh (A : Type) : Type := Banco -> option A * Banco.

Definition sh_ret {A} (a : A) : Sh A := fun b => (Some a, b).

Definition sh_bind {A B} (m : Sh A) (f : A -> Sh B) : Sh B :=
  fun b =>
    match m b with
    | (Some a, b') => f a b'
    | (None, b') => (None, b')
    end.

Declare Scope sh_scope.
Delimit Scope sh_scope with sh.
Notation "x <- c1 ;; c2" := (sh_bind c1 (fun x => c2))
  (at level 100, c1 at next level, right associativity) : sh_scope.
Notation "c1 ;; c2" := (sh_bind c1 (fun _ => c2))
  (at level 100, right associativity) : sh_scope.

(** [input(...)] *)
Definition input : Sh string :=
  fun b =>
    match b_entrada b with
    | [] => (None, b)
    | linha :: resto =>
        (Some linha,
         {| b_clientes := b_clientes b; b_contas := b_contas b;
            b_relogio := b_relogio b; b_tique := b_tique b;
            b_saida := b_saida b; b_entrada := resto |})
    end.

(** [print(...)] *)
Definition escreve (l : Linha) : Sh unit :=
  fun b =>
    (Some tt,
     {| b_clientes := b_clientes b; b_contas := b_contas b;
        b_relogio := b_relogio b; b_tique := b_tique b;
        b_saida := b_saida b ++ [l]; b_entrada := b_entrada b |}).

(** [datetime.now()] *)
Definition agora_sh : Sh datetime :=
  fun b =>
    (Some (b_relogio b (b_tique b)),
     {| b_clientes := b_clientes b; b_contas := b_contas b;
        b_relogio := b_relogio b; b_tique := S (b_tique b);
        b_saida := b_saida b; b_entrada := b_entrada b |}).

Definition get_clientes : Sh (list PessoaFisica) :=
  fun b => (Some (b_clientes b), b).

Definition get_contas : Sh (list Conta) :=
  fun b => (Some (b_contas b), b).

(** [clientes.append(cliente)] *)
Definition append_cliente (cliente : PessoaFisica) : Sh unit :=
  fun b =>
    (Some tt,
     {| b_clientes := b_clientes b ++ [cliente]; b_contas := b_contas b;
        b_relogio := b_relogio b; b_tique := b_tique b;
        b_saida := b_saida b; b_entrada := b_entrada b |}).

(** [contas.append(conta)]; the value is the reference of the new
    object. *)
Definition append_conta (conta : Conta) : Sh Z :=
  fun b =>
    (Some (Z.of_nat (S (List.length (b_contas b)))),
     {| b_clientes := b_clientes b; b_contas := b_contas b ++ [conta];
        b_relogio := b_relogio b; b_tique := b_tique b;
        b_saida := b_saida b; b_entrada := b_entrada b |}).

(** [cliente.adicionar_conta(conta)] on the client object at position
    [i]. *)
Definition adicionar_conta_em (i : nat) (ref : Z) : Sh unit :=
  fun b =>
    (Some tt,
     {| b_clientes :=
          match nth_error (b_clientes b) i with
          | Some cliente =>
              atualiza i (PessoaFisica_adicionar_conta cliente ref)
                (b_clientes b)
          | None => b_clientes b
          end;
        b_contas := b_contas b;
        b_relogio := b_relogio b; b_tique := b_tique b;
        b_saida := b_saida b; b_entrada := b_entrada b |}).

(** The position in [b_contas] a reference points to. *)
Definition posicao (ref : Z) : option nat :=
  if (1 <=? ref)%Z then Some (Z.to_nat (ref - 1)) else None.

(** A method call on the account object [ref]: the method runs in the
    world of that account, at the current clock; the account it leaves
    replaces the old one, its readings of the clock are counted and its
    messages are printed.  A reference that points to no account does not
    occur in a run of [main]; the call then counts as an exception. *)
Definition na_conta {A} (ref : Z) (m : M A) : Sh A :=
  fun b =>
    match posicao ref with
    | None => (None, b)
    | Some i =>
        match nth_error (b_contas b) i with
        | None => (None, b)
        | Some c =>
            let (a, w) :=
              m {| conta := c; relogio := b_relogio b; tique := b_tique b;
                   saida := [] |} in
            (Some a,
             {| b_clientes := b_clientes b;
                b_contas := atualiza i (conta w) (b_contas b);
                b_relogio := b_relogio b; b_tique := tique w;
                b_saida := b_saida b ++ map DaConta (saida w);
                b_entrada := b_entrada b |})
        end
    end.

Module Sistema.
Section WithLib.
Context {L : PyLib} {T : PyShellLib}.
Local Open Scope sh_scope.

(** The decorator [log_transacao]: the function runs, then the log line
    with the current time and the function's name is printed, and the
    result is returned. *)
Definition log_transacao {A} (nome_func : string) (func : Sh A) : Sh A :=
  resultado <- func ;;
  agora <- agora_sh ;;
  escreve (Log nome_func agora) ;;
  sh_ret resultado.

(** [menu()] *)
Definition menu : Sh string :=
  linha <- input ;; sh_ret (str_lower (str_strip linha)).

(** [recuperar_conta_cliente] *)
Definition recuperar_conta_cliente (cliente : PessoaFisica)
  : Sh (option Z) :=
  match contas (como_cliente cliente) with
  | [] => escreve ClienteSemConta ;; sh_ret None
  | ref :: _ => sh_ret (Some ref)
  end.

(** The body shared by the commands [depositar] and [sacar], which differ
    in the transaction they build. *)
Definition transacao_func (nova : float -> Transacao) : Sh unit :=
  cpf <- input ;;
  clientes <- get_clientes ;;
  match filtrar_cliente cpf clientes with
  | None => escreve ClienteNaoEncontrado
  | Some (_, cliente) =>
      texto <- input ;;
      match parse_float texto with
      | None => escreve ValorInvalido
      | Some valor =>
          if (valor <=? 0)%float then escreve ValorDevePositivo
          else
            let transacao := nova valor in
            conta <- recuperar_conta_cliente cliente ;;
            match conta with
            | Some ref =>
                na_conta ref
                  (Cliente.realizar_transacao (como_cliente cliente)
                     transacao) ;;
                sh_ret tt
            | None => sh_ret tt
            end
      end
  end.

Definition depositar : Sh unit :=
  log_transacao "depositar" (transacao_func Deposito).

Definition sacar : Sh unit :=
  log_transacao "sacar" (transacao_func Saque).

Definition exibir_extrato_func : Sh unit :=
  cpf <- input ;;
  clientes <- get_clientes ;;
  match filtrar_cliente cpf clientes with
  | None => escreve ClienteNaoEncontrado
  | Some (_, cliente) =>
      conta <- recuperar_conta_cliente cliente ;;
      match conta with
      | None => sh_ret tt
      | Some ref =>
          escreve ExtratoCabecalho ;;
          ts <- na_conta ref (Historico.gerar_relatorio None) ;;
          match ts with
          | [] => escreve ExtratoVazio
          | _ :: _ => escreve (ExtratoLinhas ts)
          end ;;
          s <- na_conta ref get_saldo ;;
          escreve (ExtratoSaldo s) ;;
          escreve ExtratoRodape
      end
  end.

Definition exibir_extrato : Sh unit :=
  log_transacao "exibir_extrato" exibir_extrato_func.

Definition criar_cliente_func : Sh unit :=
  linha <- input ;;
  let cpf := remove_char "-" (remove_char "." (str_strip linha)) in
  clientes <- get_clientes ;;
  match filtrar_cliente cpf clientes with
  | Some _ => escreve ClienteJaExiste
  | None =>
      nome <- input ;;
      data_nascimento <- input ;;
      endereco <- input ;;
      append_cliente
        {| como_cliente := {| endereco := endereco; contas := [] |};
           nome := nome; data_nascimento := data_nascimento;
           cpf := cpf |} ;;
      escreve ClienteCriado
  end.

Definition criar_cliente : Sh unit :=
  log_transacao "criar_cliente" criar_cliente_func.

Definition criar_conta_func (numero_conta : Z) : Sh unit :=
  cpf <- input ;;
  clientes <- get_clientes ;;
  match filtrar_cliente cpf clientes with
  | None => escreve ContaSemCliente
  | Some (i, _) =>
      let conta := ContaCorrente_init numero_conta 500 3 in
      ref <- append_conta conta ;;
      adicionar_conta_em i ref ;;
      escreve ContaCriada
  end.

Definition criar_conta (numero_conta : Z) : Sh unit :=
  log_transacao "criar_conta" (criar_conta_func numero_conta).

(** [listar_contas]: a separator and the text of each account, then the
    line for an empty list. *)
Definition imprime_conta (acc : Sh unit) (conta : Conta) : Sh unit :=
  acc ;; escreve Separador ;; escreve (ContaStr conta).

Definition listar_contas : Sh unit :=
  contas <- get_contas ;;
  fold_left imprime_conta
    (percorrer (S (List.length contas))
       (ContasIterador_init contas))
    (sh_ret tt) ;;
  match contas with
  | [] => escreve SemContas
  | _ :: _ => sh_ret tt
  end.

(** One turn of the loop of [main], once the option is read: [true] when
    the loop is left. *)
Definition despacho (opcao : string) : Sh bool :=
  if String.eqb opcao "d" then depositar ;; sh_ret false
  else if String.eqb opcao "s" then sacar ;; sh_ret false
  else if String.eqb opcao "e" then exibir_extrato ;; sh_ret false
  else if String.eqb opcao "nu" then criar_cliente ;; sh_ret false
  else if String.eqb opcao "nc" then
    contas <- get_contas ;;
    let numero_conta := (Z.of_nat (List.length contas) + 1)%Z in
    criar_conta numero_conta ;; sh_ret false
  else if String.eqb opcao "lc" then listar_contas ;; sh_ret false
  else if String.eqb opcao "q" then escreve Despedida ;; sh_ret true
  else escreve OperacaoInvalida ;; sh_ret false.

Definition turno : Sh bool :=
  opcao <- menu ;; despacho opcao.

(** How a run of [main] ends. *)
Inductive Fim := Saiu | Excecao | SemCombustivel.

Fixpoint main_loop (fuel : nat) (b : Banco) : Fim * Banco :=
  match fuel with
  | O => (SemCombustivel, b)
  | S f =>
      match turno b with
      | (None, b') => (Excecao, b')
      | (Some true, b') => (Saiu, b')
      | (Some false, b') => main_loop f b'
      end
  end.

(** [main()]: empty lists of clients and accounts.  Every turn reads a
    line, so one turn more than there are lines is fuel enough. *)
Definition banco_inicial (r : nat -> datetime) (entrada : list string)
  : Banco :=
  {| b_clientes := []; b_contas := []; b_relogio := r; b_tique := 0;
     b_saida := []; b_entrada := entrada |}.

Definition main (r : nat -> datetime) (entrada : list string)
  : Fim * Banco :=
  main_loop (S (List.length entrada)) (banco_inicial r entrada).

End WithLib.
End Sistema.

(** ** What one turn of the menu can do to the clients and accounts *)

(** Whether the character [c] occurs in [s]. *)
Fixpoint contem (c : ascii) (s : string) : bool :=
  match s with
  | EmptyString => false
  | String a r => Ascii.eqb a c || contem c r
  end.

(** The references to accounts held by the clients, client after
    client. *)
Definition referencias (clientes : list PessoaFisica) : list Z :=
  List.concat (map (fun p => contas (como_cliente p)) clientes).

Section Efeitos.
Context {L : PyLib}.

(** The four things a turn does to the lists of clients and accounts:
    nothing; one call of [realizar_transacao] on one account; one new
    client, with a CPF no client has, free of dots and dashes, and no
    account; one new current account, numbered by its position and with
    the limits 500.00 and 3, given to one client. *)
Inductive Efeito (b b' : Banco) : Prop :=
| ef_nada :
    b_clientes b' = b_clientes b -> b_contas b' = b_contas b ->
    Efeito b b'
| ef_transacao (i : nat) (cl : Cliente) (t : Transacao) (w : Mundo) :
    nth_error (b_contas b) i = Some (conta w) ->
    relogio w = b_relogio b ->
    b_clientes b' = b_clientes b ->
    b_contas b'
    = atualiza i (conta (snd (Cliente.realizar_transacao cl t w)))
        (b_contas b) ->
    Efeito b b'
| ef_cliente (p : PessoaFisica) :
    filtrar_cliente (cpf p) (b_clientes b) = None ->
    contas (como_cliente p) = [] ->
    contem "." (cpf p) = false -> contem "-" (cpf p) = false ->
    b_clientes b' = b_clientes b ++ [p] -> b_contas b' = b_contas b ->
    Efeito b b'
| ef_conta (i : nat) (p : PessoaFisica) :
    nth_error (b_clientes b) i = Some p ->
    b_clientes b'
    = atualiza i
        (PessoaFisica_adicionar_conta p
           (Z.of_nat (S (List.length (b_contas b)))))
        (b_clientes b) ->
    b_contas b'
    = b_contas b
      ++ [ContaCorrente_init (Z.of_nat (List.length (b_contas b)) + 1)
            500 3] ->
    Efeito b b'.

(** A step: its effect, the clock left as it is, no line given back to
    the input. *)
Definition Passo (b b' : Banco) : Prop :=
  Efeito b b' /\ b_relogio b' = b_relogio b /\
  (List.length (b_entrada b') <= List.length (b_entrada b))%nat.

(** [b] has the clients, the accounts and the clock of [b0], and no more
    input than [b0]. *)
Definition mesmos (b0 b : Banco) : Prop :=
  b_clientes b = b_clientes b0 /\ b_contas b = b_contas b0 /\
  b_relogio b = b_relogio b0 /\
  (List.length (b_entrada b) <= List.length (b_entrada b0))%nat.

(** A command that only reads and prints; a command that makes a step of
    [b0] from any bank that is still like [b0]. *)
Definition Neutro {A} (m : Sh A) : Prop :=
  forall b, mesmos b (snd (m b)).

Definition PassoDe (b0 : Banco) {A} (m : Sh A) : Prop :=
  forall b, mesmos b0 b -> Passo b0 (snd (m b)).

End Efeitos.

(** ** A reference instance of the second interface, for the examples

    [strip] removes ASCII white space at both ends; [float] reads an
    optional sign, digits and an optional fraction (at most 15 digits in
    all, which makes the quotient of the two exact integers the correctly
    rounded value), and the words [nan] and [inf]. *)
Module RefShell.

Definition branco (c : ascii) : bool :=
  let n := nat_of_ascii c in
  ((n =? 32) || ((9 <=? n) && (n <=? 13)))%nat.

Fixpoint lstrip (s : string) : string :=
  match s with
  | String c r => if branco c then lstrip r else s
  | EmptyString => EmptyString
  end.

Fixpoint rstrip (s : string) : string :=
  match s with
  | EmptyString => EmptyString
  | String c r =>
      match rstrip r with
      | EmptyString => if branco c then EmptyString else String c EmptyString
      | r' => String c r'
      end
  end.

Definition strip (s : string) : string := rstrip (lstrip s).

Fixpoint separa (cs : list ascii) : list ascii * option (list ascii) :=
  match cs with
  | [] => ([], None)
  | c :: r =>
      if Ascii.eqb c "." then ([], Some r)
      else let (i, f) := separa r in (c :: i, f)
  end.

Definition sem_sinal (cs : list ascii) : option float :=
  let (i, f) := separa cs in
  let f := match f with Some f => f | None => [] end in
  if ((List.length (i ++ f) =? 0) || (15 <? List.length (i ++ f)))%nat
  then None
  else
    match RefLib.numero_de (i ++ f) 0 with
    | Some n =>
        Some (SF2Prim (binary_normalize prec emax n 0 false)
              / SF2Prim (binary_normalize prec emax
                           (10 ^ Z.of_nat (List.length f)) 0 false))%float
    | None => None
    end.

Definition le_float (s : string) : option float :=
  let t := strip s in
  if String.eqb t "nan" then Some nan
  else if String.eqb t "inf" then Some infinity
  else if String.eqb t "-inf" then Some neg_infinity
  else
    match list_ascii_of_string t with
    | c :: r =>
        if Ascii.eqb c "-" then option_map PrimFloat.opp (sem_sinal r)
        else if Ascii.eqb c "+" then sem_sinal r
        else sem_sinal (c :: r)
    | [] => None
    end.

#[export] Instance lib : PyShellLib :=
  {| str_strip := strip; parse_float := le_float |}.

End RefShell.

(** * Properties *)

(** ** Binary64 arithmetic: the sign of a sum and of a difference

    The primitive operations are specified by [SpecFloat] through the
    axioms of [FloatAxioms]; the facts below are proved on that
    specification. *)
Section Binary64.
Local Open Scope Z_scope.

Lemma iter_xO_pow2 (d m : positive) :
  Zpos (Pos.iter xO m d) = Zpos m * 2 ^ Zpos d.
Proof.
  induction d as [|d IH] using Pos.peano_ind.
  - simpl. lia.
  - rewrite Pos.iter_succ, Pos2Z.inj_succ, Z.pow_succ_r by lia.
    rewrite Pos2Z.inj_xO, IH. lia.
Qed.

Lemma shl_align_fst (m : positive) (e e' : Z) :
  e' <= e -> Zpos (fst (shl_align m e e')) = Zpos m * 2 ^ (e - e').
Proof.
  intros Hle. unfold shl_align.
  destruct (e' - e) as [|p|p] eqn:Hd.
  - replace (e - e') with 0 by lia. simpl. lia.
  - lia.
  - simpl. rewrite iter_xO_pow2. replace (e - e') with (Zpos p) by lia.
    reflexivity.
Qed.

Lemma digits2_pos_bounds (m : positive) :
  2 ^ (Zpos (digits2_pos m) - 1) <= Zpos m < 2 ^ Zpos (digits2_pos m).
Proof.
  induction m as [m IH|m IH|]; simpl digits2_pos.
  - rewrite Pos2Z.inj_succ, Z.pow_succ_r by lia.
    replace (Z.succ (Zpos (digits2_pos m)) - 1)
      with (Z.succ (Zpos (digits2_pos m) - 1)) by lia.
    rewrite Z.pow_succ_r by lia. lia.
  - rewrite Pos2Z.inj_succ, Z.pow_succ_r by lia.
    replace (Z.succ (Zpos (digits2_pos m)) - 1)
      with (Z.succ (Zpos (digits2_pos m) - 1)) by lia.
    rewrite Z.pow_succ_r by lia. lia.
  - simpl. lia.
Qed.

(** A valid finite number has at most [prec] digits, and exactly [prec]
    unless its exponent is the smallest one. *)
Lemma bounded_digits (m : positive) (e : Z) :
  bounded prec emax m e = true ->
  emin <= e /\
  Zpos (digits2_pos m) <= prec /\
  (emin < e -> Zpos (digits2_pos m) = prec).
Proof.
  unfold bounded, canonical_mantissa, fexp.
  intros H. apply andb_prop in H. destruct H as [H _].
  apply Z.eqb_eq in H. lia.
Qed.

(** For two valid positive finite numbers, when the first is not below the
    second the mantissas aligned on the smaller exponent are ordered the
    same way. *)
Lemma aligned_mantissas_ge (mx my : positive) (ex ey : Z) :
  bounded prec emax mx ex = true ->
  bounded prec emax my ey = true ->
  SFltb (S754_finite false mx ex) (S754_finite false my ey) = false ->
  Zpos (fst (shl_align my ey (Z.min ex ey)))
  <= Zpos (fst (shl_align mx ex (Z.min ex ey))).
Proof.
  intros Hx Hy Hlt.
  apply bounded_digits in Hx. apply bounded_digits in Hy.
  destruct Hx as (Hx1 & Hx2 & Hx3). destruct Hy as (Hy1 & Hy2 & Hy3).
  rewrite !shl_align_fst by lia.
  unfold SFltb, SFcompare in Hlt.
  destruct (Z.compare_spec ex ey) as [Heq|Hl|Hg]; try discriminate.
  - subst ey. rewrite Z.min_id, Z.sub_diag. simpl Z.pow.
    destruct (Pos.compare_cont Eq mx my) eqn:Hc; try discriminate.
    + apply Pos.compare_eq in Hc. subst. lia.
    + change (Pos.compare mx my = Gt) in Hc.
      apply Pos.compare_gt_iff in Hc. lia.
  - rewrite Z.min_r by lia. rewrite Z.sub_diag. simpl (2 ^ 0).
    pose proof (digits2_pos_bounds mx) as Bx.
    pose proof (digits2_pos_bounds my) as By.
    rewrite Hx3 in Bx by lia.
    assert (Zpos my < 2 ^ prec).
    { eapply Z.lt_le_trans; [apply By|]. apply Z.pow_le_mono_r; lia. }
    assert (2 ^ 1 <= 2 ^ (ex - ey)) by (apply Z.pow_le_mono_r; lia).
    assert (2 ^ prec = 2 ^ (prec - 1) * 2 ^ 1).
    { rewrite <- Z.pow_add_r by (unfold prec; lia). reflexivity. }
    nia.
Qed.

(** Rounding keeps the sign it is given. *)
Lemma binary_round_aux_sign (s : bool) (m e : Z) (l : location) :
  match binary_round_aux prec emax s m e l with
  | S754_zero s' | S754_infinity s' | S754_finite s' _ _ => s' = s
  | S754_nan => True
  end.
Proof.
  unfold binary_round_aux.
  destruct (shr_fexp prec emax m e l) as [mrs' e'].
  destruct (shr_fexp prec emax _ e' loc_Exact) as [mrs'' e''].
  destruct (shr_m mrs''); auto.
  destruct (e'' <=? emax - prec); auto.
Qed.

Lemma binary_normalize_nonneg (m e : Z) :
  0 <= m ->
  SFltb (binary_normalize prec emax m e false) (S754_zero false) = false.
Proof.
  intros Hm. destruct m as [|p|p]; [reflexivity| |lia].
  unfold binary_normalize, binary_round.
  destruct (shl_align p e _) as [mz ez].
  pose proof (binary_round_aux_sign false (Zpos mz) ez loc_Exact) as Hs.
  destruct (binary_round_aux prec emax false (Zpos mz) ez loc_Exact);
    subst; reflexivity.
Qed.

Lemma SFadd_nonneg (x v : spec_float) :
  SFltb x (S754_zero false) = false ->
  SFleb v (S754_zero false) = false ->
  SFltb (SF64add x v) (S754_zero false) = false.
Proof.
  unfold SF64add, SFadd.
  destruct x as [sx|sx| |sx mx ex], v as [sv|sv| |sv mv ev];
    try destruct sx; try destruct sv; try discriminate; try reflexivity.
  intros _ _. apply binary_normalize_nonneg. simpl. lia.
Qed.

Lemma SFsub_nonneg (x v : spec_float) :
  valid_binary x = true -> valid_binary v = true ->
  SFltb x (S754_zero false) = false ->
  SFleb v (S754_zero false) = false ->
  SFltb x v = false ->
  SFltb (SF64sub x v) (S754_zero false) = false.
Proof.
  unfold SF64sub, SFsub.
  destruct x as [sx|sx| |sx mx ex], v as [sv|sv| |sv mv ev];
    try destruct sx; try destruct sv; try discriminate; try reflexivity.
  intros Hx Hv _ _ Hlt. apply binary_normalize_nonneg.
  pose proof (aligned_mantissas_ge mx mv ex ev Hx Hv Hlt).
  simpl cond_Zopp. lia.
Qed.

End Binary64.

Lemma Prim2SF_zero : Prim2SF 0%float = S754_zero false.
Proof. reflexivity. Qed.

(** Adding an amount that is not [<= 0] to a balance that is not [< 0]. *)
Lemma float_add_nonneg (x v : float) :
  negativo x = false -> (v <=? 0)%float = false ->
  negativo (x + v)%float = false.
Proof.
  unfold negativo.
  rewrite !ltb_spec, leb_spec, add_spec, Prim2SF_zero. apply SFadd_nonneg.
Qed.

(** Subtracting an amount that is not [<= 0] and not above the balance. *)
Lemma float_sub_nonneg (x v : float) :
  negativo x = false -> (v <=? 0)%float = false ->
  (x <? v)%float = false ->
  negativo (x - v)%float = false.
Proof.
  unfold negativo.
  rewrite !ltb_spec, leb_spec, sub_spec, Prim2SF_zero.
  apply SFsub_nonneg; apply Prim2SF_valid.
Qed.

(** ** What one call does to the world *)
Section Execucao.
Context {L : PyLib}.

Lemma date_eqb_eq (a b : date) : date_eqb a b = true <-> a = b.
Proof.
  unfold date_eqb. destruct a as [ya ma da], b as [yb mb db]. simpl.
  rewrite !andb_true_iff, !Z.eqb_eq. split.
  - intros [[-> ->] ->]. reflexivity.
  - intros H. injection H as -> -> ->. auto.
Qed.

(** The loop of [transacoes_do_dia] is a filter that appends to what was
    collected so far. *)
Lemma fold_passo_do_dia (d : date) (ts acc : list registro) :
  fold_left (Historico.passo_do_dia d) ts acc = acc ++ filter (eh_do_dia d) ts.
Proof.
  revert acc. induction ts as [|t ts IH]; intros acc; simpl.
  - now rewrite app_nil_r.
  - rewrite IH. unfold Historico.passo_do_dia, eh_do_dia.
    destruct (strptime (data t)) as [dt|]; [|reflexivity].
    destruct (date_eqb d (dt_date dt)); [|reflexivity].
    now rewrite <- app_assoc.
Qed.

Lemma transacoes_do_dia_run (w : Mundo) :
  Historico.transacoes_do_dia w
  = (do_dia (hoje w) (historico (conta w)), apos_relogio w).
Proof.
  unfold Historico.transacoes_do_dia, now, get_transacoes, get_conta, bind,
    ret. simpl.
  now rewrite fold_passo_do_dia.
Qed.

Lemma Conta_sacar_run (valor : float) (w : Mundo) :
  Conta.sacar valor w =
  if (valor <=? 0)%float then (false, com_mensagem w MsgValorInvalido)
  else if (saldo (conta w) <? valor)%float
       then (false, com_mensagem w MsgSaldoInsuficiente)
       else (true,
             com_mensagem (com_saldo w (saldo (conta w) - valor)%float)
               MsgSaqueRealizado).
Proof.
  unfold Conta.sacar.
  destruct (valor <=? 0)%float; [reflexivity|].
  unfold get_saldo, get_conta, bind, ret.
  destruct (saldo (conta w) <? valor)%float; reflexivity.
Qed.

Lemma Conta_depositar_run (valor : float) (w : Mundo) :
  Conta.depositar valor w =
  if (valor <=? 0)%float then (false, com_mensagem w MsgValorInvalido)
  else (true,
        com_mensagem (com_saldo w (saldo (conta w) + valor)%float)
          MsgDepositoRealizado).
Proof.
  unfold Conta.depositar.
  destruct (valor <=? 0)%float; reflexivity.
Qed.

Lemma ContaCorrente_sacar_run (limite : float) (limite_saques : Z)
  (valor : float) (w : Mundo) :
  ContaCorrente.sacar limite limite_saques valor w =
  if (limite <? valor)%float
  then (false, com_mensagem (apos_relogio w) MsgExcedeLimite)
  else if (limite_saques
           <=? Z.of_nat (saques_do_dia (hoje w) (historico (conta w))))%Z
       then (false, com_mensagem (apos_relogio w) MsgExcedeSaques)
       else Conta.sacar valor (apos_relogio w).
Proof.
  unfold ContaCorrente.sacar, bind at 1.
  rewrite transacoes_do_dia_run. fold (saques_do_dia (hoje w) (historico (conta w))).
  destruct (limite <? valor)%float; [reflexivity|].
  destruct (limite_saques <=? _)%Z; reflexivity.
Qed.

(** The account methods never touch the history, the number or the class
    of the account, and a call that returns [False] leaves the whole
    account as it was. *)
Lemma Conta_sacar_frame (valor : float) (w : Mundo) :
  let r := Conta.sacar valor w in
  historico (conta (snd r)) = historico (conta w) /\
  classe (conta (snd r)) = classe (conta w) /\
  numero (conta (snd r)) = numero (conta w) /\
  (fst r = false -> conta (snd r) = conta w).
Proof.
  simpl. rewrite Conta_sacar_run.
  destruct (valor <=? 0)%float; [simpl; auto|].
  destruct (saldo (conta w) <? valor)%float; simpl; auto.
  repeat split; auto. discriminate.
Qed.

Lemma conta_sacar_frame (valor : float) (w : Mundo) :
  let r := conta_sacar valor w in
  historico (conta (snd r)) = historico (conta w) /\
  classe (conta (snd r)) = classe (conta w) /\
  numero (conta (snd r)) = numero (conta w) /\
  (fst r = false -> conta (snd r) = conta w).
Proof.
  simpl. unfold conta_sacar, get_conta, bind.
  destruct (classe (conta w)) as [|limite limite_saques] eqn:Hc.
  - rewrite <- Hc. apply Conta_sacar_frame.
  - rewrite <- Hc. rewrite ContaCorrente_sacar_run.
    destruct (limite <? valor)%float; [simpl; auto|].
    destruct (limite_saques <=? _)%Z; [simpl; auto|].
    apply (Conta_sacar_frame valor (apos_relogio w)).
Qed.

Lemma conta_depositar_frame (valor : float) (w : Mundo) :
  let r := conta_depositar valor w in
  historico (conta (snd r)) = historico (conta w) /\
  classe (conta (snd r)) = classe (conta w) /\
  numero (conta (snd r)) = numero (conta w) /\
  (fst r = false -> conta (snd r) = conta w).
Proof.
  simpl. unfold conta_depositar. rewrite Conta_depositar_run.
  destruct (valor <=? 0)%float; simpl; auto.
  repeat split; auto. discriminate.
Qed.

End Execucao.

(** ** The account operations *)
Section Contas.
Context {L : PyLib}.

(** C3. [Conta.sacar]: when [valor <= 0] or [valor > saldo] the call
    returns [False] and the account is left as it was; otherwise it returns
    [True] and the balance is [saldo - valor], nothing else of the account
    changing. *)
Theorem Conta_sacar_correct (valor : float) (w : Mundo) :
  let r := Conta.sacar valor w in
  if ((valor <=? 0) || (saldo (conta w) <? valor))%float
  then fst r = false /\ conta (snd r) = conta w
  else fst r = true /\
       conta (snd r) =
       {| saldo := (saldo (conta w) - valor)%float;
          numero := numero (conta w);
          historico := historico (conta w);
          classe := classe (conta w) |}.
Proof.
  simpl. rewrite Conta_sacar_run.
  destruct (valor <=? 0)%float; simpl; [auto|].
  destruct (saldo (conta w) <? valor)%float; simpl; auto.
Qed.

(** C4. [depositar], on an account of either class: when [valor <= 0] the
    call returns [False] and the account (so the balance) is left as it
    was; otherwise it returns [True] and the balance is [saldo + valor]. *)
Theorem depositar_correct (valor : float) (w : Mundo) :
  let r := conta_depositar valor w in
  if (valor <=? 0)%float
  then fst r = false /\ conta (snd r) = conta w
  else fst r = true /\
       conta (snd r) =
       {| saldo := (saldo (conta w) + valor)%float;
          numero := numero (conta w);
          historico := historico (conta w);
          classe := classe (conta w) |}.
Proof.
  simpl. unfold conta_depositar. rewrite Conta_depositar_run.
  destruct (valor <=? 0)%float; simpl; auto.
Qed.

(** C1. [sacar] on a current account, after one reading of the clock:
    first the amount is tested against the limit; then the number of
    records of the history that are of today (their date text parses to
    the date just read) and whose type is the text [Saque] is tested
    against the daily limit; only then is [Conta.sacar] called (which
    tests the amount and the balance).  The first test that fails decides
    the message and the result, so an amount above the limit is refused
    whatever the balance is. *)
Theorem ContaCorrente_sacar_order (limite : float) (limite_saques : Z)
  (valor : float) (w : Mundo) :
  classe (conta w) = ClasseContaCorrente limite limite_saques ->
  let de_hoje (t : registro) :=
    match strptime (data t) with
    | Some dt => date_eqb (dt_date (relogio w (tique w))) (dt_date dt)
    | None => false
    end in
  let saques_de_hoje :=
    filter (fun t => String.eqb (tipo t) "Saque")
      (filter de_hoje (historico (conta w))) in
  conta_sacar valor w =
  if (limite <? valor)%float
  then (false, com_mensagem (apos_relogio w) MsgExcedeLimite)
  else if (limite_saques <=? Z.of_nat (List.length saques_de_hoje))%Z
       then (false, com_mensagem (apos_relogio w) MsgExcedeSaques)
       else Conta.sacar valor (apos_relogio w).
Proof.
  intros Hc de_hoje saques_de_hoje.
  unfold conta_sacar, get_conta, bind. rewrite Hc.
  rewrite ContaCorrente_sacar_run.
  unfold saques_do_dia, ContaCorrente.numero_saques, do_dia, hoje.
  reflexivity.
Qed.

End Contas.

(** An amount of 600 against the limit of 500 and a balance of 100: both
    the limit and the balance are exceeded, and the limit is reported. *)
Lemma ContaCorrente_sacar_order_witness :
  classe (conta (RefLib.mundo_exemplo 100 [])) = ClasseContaCorrente 500 3 /\
  conta_sacar (L := RefLib.lib) 600 (RefLib.mundo_exemplo 100 [])
  = (false,
     com_mensagem (apos_relogio (RefLib.mundo_exemplo 100 [])) MsgExcedeLimite).
Proof.
  split; [reflexivity|].
  exact (ContaCorrente_sacar_order (L := RefLib.lib) 500 3 600
           (RefLib.mundo_exemplo 100 []) eq_refl).
Defined.

(** The second test counts the withdrawals of today and nothing else.
    With a limit of 3 a day: three withdrawals today, next to a deposit of
    today, a withdrawal of the day before and a record whose type is
    written in lower case, make a withdrawal of 100 on a balance of 1000
    fail for the number of withdrawals; with two withdrawals today next to
    the same other records it is made. *)
Example ContaCorrente_sacar_counts_todays_withdrawals :
  let outros := [mk_registro "Deposito" 50 "17-05-2024 08:00:00";
                 mk_registro "Saque" 10 "16-05-2024 12:00:00";
                 mk_registro "saque" 10 "17-05-2024 09:00:00"] in
  let s1 := mk_registro "Saque" 10 "17-05-2024 09:30:00" in
  let s2 := mk_registro "Saque" 20 "17-05-2024 10:30:00" in
  let s3 := mk_registro "Saque" 30 "17-05-2024 11:30:00" in
  let r3 := conta_sacar (L := RefLib.lib) 100
              (RefLib.mundo_exemplo 1000 (s1 :: outros ++ [s2; s3])) in
  let r2 := conta_sacar (L := RefLib.lib) 100
              (RefLib.mundo_exemplo 1000 (s1 :: outros ++ [s2])) in
  (fst r3 = false /\ saldo (conta (snd r3)) = 1000%float /\
   saida (snd r3) = [MsgExcedeSaques]) /\
  (fst r2 = true /\ saldo (conta (snd r2)) = 900%float /\
   saida (snd r2) = [MsgSaqueRealizado]).
Proof. vm_compute. repeat split. Qed.

(** ** Registering a transaction and the client's daily limit *)
Section Transacoes.
Context {L : PyLib}.

Lemma adicionar_transacao_run (t : Transacao) (w : Mundo) :
  Historico.adicionar_transacao t w =
  (tt,
   {| conta :=
        {| saldo := saldo (conta w); numero := numero (conta w);
           historico :=
             historico (conta w) ++ [registro_de t (relogio w (tique w))];
           classe := classe (conta w) |};
      relogio := relogio w; tique := S (tique w); saida := saida w |}).
Proof. reflexivity. Qed.

(** [registrar] runs the account method; on [True] it then appends the
    record, on [False] it does nothing more. *)
Lemma registrar_run (t : Transacao) (w : Mundo) :
  transacao_registrar t w =
  if fst (operacao_da_conta t w)
  then (true, snd (Historico.adicionar_transacao t
                     (snd (operacao_da_conta t w))))
  else (false, snd (operacao_da_conta t w)).
Proof.
  destruct t as [v|v]; simpl;
    unfold Saque.registrar, Deposito.registrar, bind at 1; simpl.
  - destruct (conta_sacar v w) as [[|] w1]; reflexivity.
  - destruct (conta_depositar v w) as [[|] w1]; reflexivity.
Qed.

Lemma operacao_da_conta_frame (t : Transacao) (w : Mundo) :
  let r := operacao_da_conta t w in
  historico (conta (snd r)) = historico (conta w) /\
  classe (conta (snd r)) = classe (conta w) /\
  numero (conta (snd r)) = numero (conta w) /\
  (fst r = false -> conta (snd r) = conta w).
Proof.
  destruct t as [v|v]; [apply conta_sacar_frame|apply conta_depositar_frame].
Qed.

Lemma realizar_transacao_run (self : Cliente) (t : Transacao) (w : Mundo) :
  Cliente.realizar_transacao self t w =
  if (2 <=? List.length (do_dia (hoje w) (historico (conta w))))%nat
  then (false, com_mensagem (apos_relogio w) MsgExcedeTransacoes)
  else transacao_registrar t (apos_relogio w).
Proof.
  unfold Cliente.realizar_transacao, bind at 1.
  rewrite transacoes_do_dia_run.
  destruct (2 <=? _)%nat; reflexivity.
Qed.

(** A transaction that is refused, by the account or by the client's
    limit, leaves the account as it was. *)
Lemma registrar_refused (t : Transacao) (w : Mundo) :
  fst (transacao_registrar t w) = false ->
  conta (snd (transacao_registrar t w)) = conta w.
Proof.
  rewrite registrar_run.
  destruct (fst (operacao_da_conta t w)) eqn:Hb; simpl; [discriminate|].
  intros _. now apply operacao_da_conta_frame.
Qed.

Lemma realizar_transacao_refused (self : Cliente) (t : Transacao)
  (w : Mundo) :
  fst (Cliente.realizar_transacao self t w) = false ->
  conta (snd (Cliente.realizar_transacao self t w)) = conta w.
Proof.
  rewrite realizar_transacao_run.
  destruct (2 <=? _)%nat; [reflexivity|].
  intros H. now rewrite registrar_refused.
Qed.

(** C5. [registrar] of a [Saque] calls [conta.sacar] and that of a
    [Deposito] calls [conta.depositar], with the transaction's amount; it
    returns what that call returned; the history gains exactly one record
    (type, amount and formatted time of the transaction) when the call
    returned [True] and is unchanged when it returned [False]; the balance
    is the one the account method left. *)
Theorem registrar_records_iff_success (t : Transacao) (w : Mundo) :
  let op := match t with
            | Saque v => conta_sacar v
            | Deposito v => conta_depositar v
            end in
  let r := transacao_registrar t w in
  fst r = fst (op w) /\
  historico (conta (snd r)) =
    (if fst (op w)
     then historico (conta w)
          ++ [registro_de t (relogio (snd (op w)) (tique (snd (op w))))]
     else historico (conta w)) /\
  saldo (conta (snd r)) = saldo (conta (snd (op w))).
Proof.
  change (match t with
          | Saque v => conta_sacar v
          | Deposito v => conta_depositar v
          end) with (operacao_da_conta t).
  simpl. rewrite registrar_run.
  destruct (operacao_da_conta_frame t w) as (Hh & _).
  destruct (fst (operacao_da_conta t w)); simpl; rewrite ?Hh; auto.
Qed.

(** C2. [realizar_transacao] reads the clock once; when the account
    already has two or more records of that day (deposits and withdrawals
    alike) it returns [False] and the account, balance and history
    included, is left as it was; otherwise it is [transacao.registrar],
    whose result it returns. *)
Theorem realizar_transacao_daily_cap (self : Cliente) (t : Transacao)
  (w : Mundo) :
  let r := Cliente.realizar_transacao self t w in
  if (2 <=? List.length (fst (Historico.transacoes_do_dia w)))%nat
  then fst r = false /\ conta (snd r) = conta w
  else r = transacao_registrar t (snd (Historico.transacoes_do_dia w)).
Proof.
  cbv zeta. rewrite realizar_transacao_run, transacoes_do_dia_run.
  cbn [fst snd].
  destruct (2 <=? _)%nat; simpl; auto.
Qed.

(** C9. A transaction attempt that fails, whether the client's limit, the
    withdrawal limits or the account refused it, adds nothing to the
    history: for every day the number of that day's transactions and the
    number of that day's withdrawals are what they were, so neither daily
    limit is consumed. *)
Theorem failed_attempt_not_counted (self : Cliente) (t : Transacao)
  (w : Mundo) :
  fst (Cliente.realizar_transacao self t w) = false ->
  let w' := snd (Cliente.realizar_transacao self t w) in
  historico (conta w') = historico (conta w) /\
  forall d : date,
    List.length (do_dia d (historico (conta w')))
    = List.length (do_dia d (historico (conta w))) /\
    saques_do_dia d (historico (conta w'))
    = saques_do_dia d (historico (conta w)).
Proof.
  intros H. simpl. rewrite (realizar_transacao_refused self t w H). auto.
Qed.

End Transacoes.

(** A withdrawal of 600 refused by the limit of 500, on an account that
    already has one withdrawal today. *)
Lemma failed_attempt_not_counted_witness :
  let h := [registro_de (L := RefLib.lib) (Saque 50) RefLib.meio_dia] in
  let w := RefLib.mundo_exemplo 1000 h in
  let w' := snd (Cliente.realizar_transacao (L := RefLib.lib)
                   RefLib.cliente_exemplo (Saque 600) w) in
  fst (Cliente.realizar_transacao (L := RefLib.lib)
         RefLib.cliente_exemplo (Saque 600) w) = false /\
  historico (conta w') = h /\
  forall d : date,
    List.length (do_dia (L := RefLib.lib) d (historico (conta w')))
    = List.length (do_dia (L := RefLib.lib) d h) /\
    saques_do_dia (L := RefLib.lib) d (historico (conta w'))
    = saques_do_dia (L := RefLib.lib) d h.
Proof.
  intros h w w'. split; [reflexivity|].
  exact (failed_attempt_not_counted (L := RefLib.lib)
           RefLib.cliente_exemplo (Saque 600) w eq_refl).
Defined.

(** ** The balance is never negative *)
Section Saldo.
Context {L : PyLib}.

Lemma Conta_sacar_keeps_sign (valor : float) (w : Mundo) :
  negativo (saldo (conta w)) = false ->
  negativo (saldo (conta (snd (Conta.sacar valor w)))) = false.
Proof.
  intros Hw. rewrite Conta_sacar_run.
  destruct (valor <=? 0)%float eqn:Hv; [exact Hw|].
  destruct (saldo (conta w) <? valor)%float eqn:Hs; [exact Hw|].
  simpl. now apply float_sub_nonneg.
Qed.

Lemma conta_sacar_keeps_sign (valor : float) (w : Mundo) :
  negativo (saldo (conta w)) = false ->
  negativo (saldo (conta (snd (conta_sacar valor w)))) = false.
Proof.
  intros Hw. unfold conta_sacar, get_conta, bind.
  destruct (classe (conta w)) as [|limite limite_saques].
  - now apply Conta_sacar_keeps_sign.
  - rewrite ContaCorrente_sacar_run.
    destruct (limite <? valor)%float; [exact Hw|].
    destruct (limite_saques <=? _)%Z; [exact Hw|].
    now apply (Conta_sacar_keeps_sign valor (apos_relogio w)).
Qed.

Lemma conta_depositar_keeps_sign (valor : float) (w : Mundo) :
  negativo (saldo (conta w)) = false ->
  negativo (saldo (conta (snd (conta_depositar valor w)))) = false.
Proof.
  intros Hw. unfold conta_depositar. rewrite Conta_depositar_run.
  destruct (valor <=? 0)%float eqn:Hv; [exact Hw|].
  simpl. now apply float_add_nonneg.
Qed.

Lemma registrar_keeps_sign (t : Transacao) (w : Mundo) :
  negativo (saldo (conta w)) = false ->
  negativo (saldo (conta (snd (transacao_registrar t w)))) = false.
Proof.
  intros Hw.
  assert (Hop : negativo (saldo (conta (snd (operacao_da_conta t w))))
                = false).
  { destruct t as [v|v];
      [now apply conta_sacar_keeps_sign|now apply conta_depositar_keeps_sign]. }
  rewrite registrar_run.
  destruct (fst (operacao_da_conta t w)); exact Hop.
Qed.

Lemma executar_keeps_sign (op : Operacao) (w : Mundo) :
  negativo (saldo (conta w)) = false ->
  negativo (saldo (conta (snd (executar op w)))) = false.
Proof.
  intros Hw. destruct op as [v|v|c t]; simpl.
  - now apply conta_sacar_keeps_sign.
  - now apply conta_depositar_keeps_sign.
  - rewrite realizar_transacao_run.
    destruct (2 <=? _)%nat; [exact Hw|].
    now apply (registrar_keeps_sign t (apos_relogio w)).
Qed.

Lemma executar_todas_keeps_sign (ops : list Operacao) (w : Mundo) :
  negativo (saldo (conta w)) = false ->
  negativo (saldo (conta (snd (executar_todas ops w)))) = false.
Proof.
  revert w. induction ops as [|op ops IH]; intros w Hw; simpl.
  - exact Hw.
  - unfold bind. destruct (executar op w) as [b w1] eqn:He.
    apply IH. change w1 with (snd (b, w1)). rewrite <- He.
    now apply executar_keeps_sign.
Qed.

(** C6. An account, of either class, is created with balance [0.0];
    whatever sequence of withdrawals and deposits is then made on it
    (direct calls or through [realizar_transacao], accepted or refused, at
    whatever times), the balance at the end is not below zero.  The
    sequence being arbitrary, this holds after each of its operations. *)
Theorem saldo_never_negative (ops : list Operacao) (r : nat -> datetime)
  (n : Z) (limite : float) (limite_saques : Z) :
  negativo
    (saldo (conta (snd (executar_todas ops
                          (mundo_inicial (Conta_init n) r))))) = false /\
  negativo
    (saldo (conta (snd (executar_todas ops
                          (mundo_inicial
                             (ContaCorrente_init n limite limite_saques)
                             r))))) = false.
Proof.
  split; apply executar_todas_keeps_sign; reflexivity.
Qed.

End Saldo.

(** ** Queries on the history *)
Section Consultas.
Context {L : PyLib}.

Lemma gerar_filter (tipo_transacao : option string) (ts : list registro) :
  Historico.gerar tipo_transacao ts
  = filter (Historico.seleciona tipo_transacao) ts.
Proof.
  induction ts as [|t ts IH]; simpl; [reflexivity|].
  now rewrite IH.
Qed.

Lemma filter_all {A : Type} (l : list A) : filter (fun _ => true) l = l.
Proof. induction l as [|a l IH]; simpl; [reflexivity|now rewrite IH]. Qed.

(** C7. [transacoes_do_dia] returns the records of the history whose
    stored date is the current date, in the order of the history: the
    result is the history filtered by that test, a record is in it exactly
    when it is in the history and its date text parses to a time of the
    current day (whatever the hour, minute and second on either side), and
    the account is not changed. *)
Theorem transacoes_do_dia_correct (w : Mundo) :
  let r := Historico.transacoes_do_dia w in
  let agora := relogio w (tique w) in
  fst r = filter (eh_do_dia (dt_date agora)) (historico (conta w)) /\
  (forall t : registro,
     In t (fst r) <->
     In t (historico (conta w)) /\
     exists dt : datetime,
       strptime (data t) = Some dt /\ dt_date dt = dt_date agora) /\
  conta (snd r) = conta w.
Proof.
  cbv zeta. rewrite transacoes_do_dia_run. cbn [fst snd].
  split; [reflexivity|]. split; [|reflexivity].
  intros t. unfold do_dia, hoje. rewrite filter_In. unfold eh_do_dia.
  split.
  - intros [Hin Hd]. split; [exact Hin|].
    destruct (strptime (data t)) as [dt|]; [|discriminate].
    exists dt. split; [reflexivity|].
    symmetry. now apply date_eqb_eq.
  - intros [Hin (dt & Hp & Hd)]. split; [exact Hin|].
    rewrite Hp. apply date_eqb_eq. now symmetry.
Qed.

(** C8. [gerar_relatorio] without a type yields the whole history, in its
    order; with a type it yields the history filtered by the match of the
    record's type with that type, so exactly the matching records, in the
    order of the history.  The history itself is not changed. *)
Theorem gerar_relatorio_correct (tipo_transacao : string) (w : Mundo) :
  Historico.gerar_relatorio None w = (historico (conta w), w) /\
  Historico.gerar_relatorio (Some tipo_transacao) w
  = (filter (fun t => String.eqb (str_lower (tipo t))
                        (str_lower tipo_transacao))
       (historico (conta w)), w).
Proof.
  unfold Historico.gerar_relatorio, get_transacoes, get_conta, bind, ret.
  rewrite !gerar_filter. simpl. now rewrite filter_all.
Qed.

(** C10. With a type given, a record is yielded by [gerar_relatorio]
    exactly when it is in the history and its type in lower case equals the
    given type in lower case. *)
Theorem gerar_relatorio_case_insensitive (tipo_transacao : string)
  (w : Mundo) (t : registro) :
  In t (fst (Historico.gerar_relatorio (Some tipo_transacao) w)) <->
  In t (historico (conta w)) /\
  str_lower (tipo t) = str_lower tipo_transacao.
Proof.
  unfold Historico.gerar_relatorio, get_transacoes, get_conta, bind, ret.
  cbn [fst]. rewrite gerar_filter, filter_In. simpl.
  now rewrite String.eqb_eq.
Qed.

End Consultas.

(** ** The procedural version of desafio.py *)
Section Procedural.
Context {L : PyLib}.

(** For an amount that is a number (not NaN), [valor > 0] is the negation
    of [valor <= 0]. *)
Lemma float_pos_not_le (v : float) :
  (v =? v)%float = true -> (0 <? v)%float = negb (v <=? 0)%float.
Proof.
  rewrite FloatAxioms.eqb_spec, ltb_spec, leb_spec, Prim2SF_zero.
  destruct (Prim2SF v) as [s|s| |s m e]; try destruct s;
    try reflexivity; try discriminate.
Qed.

(** [depositar] of desafio.py moves the balance as [Conta.depositar] does
    whenever the amount is a number. *)
Lemma Desafio_depositar_agrees (saldo0 : float) (extrato : string)
  (valor : float) (w : Mundo) :
  (valor =? valor)%float = true ->
  saldo (conta w) = saldo0 ->
  fst (fst (Desafio.depositar saldo0 extrato valor))
  = saldo (conta (snd (Conta.depositar valor w))).
Proof.
  intros Hv Hs. unfold Desafio.depositar.
  rewrite Conta_depositar_run, (float_pos_not_le valor Hv).
  destruct (valor <=? 0)%float; simpl; congruence.
Qed.

(** [sacar] of desafio.py accepts and refuses the same withdrawals as the
    three tests of [ContaCorrente.sacar] followed by [Conta.sacar] whenever
    the amount is a number; only the order of the tests, so the message of
    a withdrawal refused for several reasons, differs. *)
Lemma Desafio_sacar_accepts (saldo0 : float) (extrato : string)
  (numero_saques : Z) (valor limite : float) (limite_saques : Z) :
  (valor =? valor)%float = true ->
  let r := Desafio.sacar saldo0 extrato numero_saques valor limite
             limite_saques in
  if ((limite <? valor)%float || (limite_saques <=? numero_saques)%Z
      || (valor <=? 0)%float || (saldo0 <? valor)%float)%bool
  then fst (fst (fst r)) = saldo0 /\ snd (fst r) = numero_saques
  else fst (fst (fst r)) = (saldo0 - valor)%float /\
       snd (fst r) = (numero_saques + 1)%Z.
Proof.
  intros Hv. cbv zeta. unfold Desafio.sacar.
  rewrite (float_pos_not_le valor Hv).
  destruct (saldo0 <? valor)%float, (limite <? valor)%float,
    (limite_saques <=? numero_saques)%Z, (valor <=? 0)%float; simpl; auto.
Qed.

End Procedural.

(** ** Examples on the reference library *)
Module Exemplos.
Import RefLib.

(** The scenario of a new current account (limit 500, 3 withdrawals a
    day): a deposit of 1000 is accepted, a withdrawal of 600 is refused by
    the limit, one of 500 is accepted, and the next attempt is refused by
    the client's limit of two transactions a day. *)
Example scenario_new_account :
  let w := snd (executar_todas
                  [OpRealizar cliente_exemplo (Deposito 1000);
                   OpRealizar cliente_exemplo (Saque 600);
                   OpRealizar cliente_exemplo (Saque 500);
                   OpRealizar cliente_exemplo (Saque 500)]
                  (mundo_inicial (ContaCorrente_init 1 500 3)
                     relogio_parado)) in
  saldo (conta w) = 500%float /\
  saida w = [MsgDepositoRealizado; MsgExcedeLimite; MsgSaqueRealizado;
             MsgExcedeTransacoes] /\
  map tipo (historico (conta w)) = ["Deposito"; "Saque"]%string /\
  map data (historico (conta w))
  = ["17-05-2024 12:00:00"; "17-05-2024 12:00:00"]%string.
Proof. vm_compute. repeat split. Qed.

(** A withdrawal of 100 on a balance of 50 is refused for lack of balance
    and the balance stays 50. *)
Example scenario_insufficient_balance :
  let r := conta_sacar 100 (mundo_exemplo 50 []) in
  fst r = false /\ saldo (conta (snd r)) = 50%float /\
  saida (snd r) = [MsgSaldoInsuficiente].
Proof. vm_compute. repeat split. Qed.

(** Filtering by the type written in lower case finds the records of the
    class [Saque]. *)
Example filter_by_lowercase_type :
  let h := [registro_de (Deposito 10) meio_dia;
            registro_de (Saque 5) meio_dia;
            registro_de (Saque 7) meio_dia] in
  map valor (fst (Historico.gerar_relatorio (Some "saque"%string)
                    (mundo_exemplo 0 h)))
  = [5%float; 7%float].
Proof. vm_compute. reflexivity. Qed.

(** Records of the same day at different times of day all count for the
    day; a record of another day, or one whose date does not parse, does
    not. *)
Example today_ignores_time_of_day :
  let h := [mk_registro "Saque" 1 "17-05-2024 00:00:01";
            mk_registro "Saque" 2 "16-05-2024 12:00:00";
            mk_registro "Deposito" 3 "17-05-2024 23:59:59";
            mk_registro "Saque" 4 "hoje"] in
  map valor (fst (Historico.transacoes_do_dia (mundo_exemplo 0 h)))
  = [1%float; 3%float].
Proof. vm_compute. reflexivity. Qed.

(** The statement text of the procedural version after a deposit and a
    withdrawal. *)
Example procedural_statement :
  let d := fst (Desafio.depositar 0 "" 1000) in
  let s := fst (Desafio.sacar (fst d) (snd d) 0 250.5 500 3) in
  fst (fst s) = 749.5%float /\
  snd s = 1%Z /\
  snd (fst s)
  = ("Depósito: R$ 1000.00" ++ Desafio.nl ++
     "Saque: R$ 250.50" ++ Desafio.nl)%string.
Proof. vm_compute. repeat split. Qed.

(** With a balance of 100 and a limit of 500, a withdrawal of 600 is
    refused by both versions, the class reporting the limit and the
    procedural [sacar] the balance. *)
Example versions_differ_in_message :
  snd (Desafio.sacar 100 "" 0 600 500 3) = MsgSaldoInsuficiente /\
  saida (snd (conta_sacar 600 (mundo_exemplo 100 []))) = [MsgExcedeLimite].
Proof. vm_compute. split; reflexivity. Qed.

(** An amount that is not a number passes the test [valor <= 0] of the
    class, so the balance becomes NaN, which is neither below zero nor at
    least zero; the procedural [depositar] tests [valor > 0] and refuses
    it. *)
Example deposit_of_nan :
  let r := conta_depositar nan (mundo_exemplo 100 []) in
  fst r = true /\
  negativo (saldo (conta (snd r))) = false /\
  (0 <=? saldo (conta (snd r)))%float = false /\
  Desafio.depositar 100 "" nan = ((100%float, ""%string), MsgValorInvalido).
Proof. vm_compute. repeat split. Qed.

End Exemplos.

(** * Properties of the rest of the program *)

(** ** Binary64 arithmetic: sums and differences that are numbers *)
Section Binary64Numbers.
Local Open Scope Z_scope.

Lemma shr_1_nonneg (mrs : shr_record) :
  0 <= shr_m mrs -> 0 <= shr_m (shr_1 mrs).
Proof.
  destruct mrs as [m r s]. destruct m as [|p|p]; try destruct p; simpl; lia.
Qed.

Lemma iter_shr_1_nonneg (p : positive) (mrs : shr_record) :
  0 <= shr_m mrs -> 0 <= shr_m (SpecFloat.iter_pos shr_1 p mrs).
Proof.
  revert mrs. induction p as [p IH|p IH|]; intros mrs H; simpl.
  - apply IH, IH, shr_1_nonneg, H.
  - apply IH, IH, H.
  - apply shr_1_nonneg, H.
Qed.

Lemma shr_fexp_nonneg (m e : Z) (l : location) :
  0 <= m -> 0 <= shr_m (fst (shr_fexp prec emax m e l)).
Proof.
  intros Hm. unfold shr_fexp, shr.
  assert (H0 : 0 <= shr_m (shr_record_of_loc m l)).
  { destruct l as [|[| |]]; exact Hm. }
  destruct (fexp prec emax (Zdigits2 m + e) - e); simpl; auto.
  now apply iter_shr_1_nonneg.
Qed.

Lemma round_nearest_even_nonneg (m : Z) (l : location) :
  0 <= m -> 0 <= round_nearest_even m l.
Proof.
  intros Hm. destruct l as [|[| |]]; simpl; try lia.
  destruct (Z.even m); lia.
Qed.

(** Rounding a mantissa that is not negative gives a zero, a finite number
    or an infinity, of the sign asked for: never NaN. *)
Lemma binary_round_aux_number (s : bool) (m e : Z) (l : location) :
  0 <= m ->
  match binary_round_aux prec emax s m e l with
  | S754_zero s' | S754_infinity s' | S754_finite s' _ _ => s' = s
  | S754_nan => False
  end.
Proof.
  intros Hm. unfold binary_round_aux.
  pose proof (shr_fexp_nonneg m e l Hm) as H1.
  destruct (shr_fexp prec emax m e l) as [mrs' e']. simpl in H1.
  pose proof (shr_fexp_nonneg
                (round_nearest_even (shr_m mrs') (loc_of_shr_record mrs'))
                e' loc_Exact
                (round_nearest_even_nonneg _ _ H1)) as H2.
  destruct (shr_fexp prec emax _ e' loc_Exact) as [mrs'' e'']. simpl in H2.
  destruct (shr_m mrs''); [reflexivity| |lia].
  destruct (e'' <=? emax - prec); reflexivity.
Qed.

Lemma binary_normalize_ge0 (m e : Z) :
  0 <= m ->
  SFleb (S754_zero false) (binary_normalize prec emax m e false) = true.
Proof.
  intros Hm. destruct m as [|p|p]; [reflexivity| |lia].
  unfold binary_normalize, binary_round.
  destruct (shl_align p e _) as [mz ez].
  pose proof (binary_round_aux_number false (Zpos mz) ez loc_Exact) as Hs.
  destruct (binary_round_aux prec emax false (Zpos mz) ez loc_Exact);
    try (rewrite Hs by lia; reflexivity).
  exfalso. apply Hs. lia.
Qed.

Lemma SFadd_ge0 (x v : spec_float) :
  SFleb (S754_zero false) x = true ->
  SFltb (S754_zero false) v = true ->
  SFleb (S754_zero false) (SF64add x v) = true.
Proof.
  unfold SF64add, SFadd.
  destruct x as [sx|sx| |sx mx ex], v as [sv|sv| |sv mv ev];
    try destruct sx; try destruct sv; try discriminate; try reflexivity.
  intros _ _. apply binary_normalize_ge0. simpl. lia.
Qed.

(** The amount is also bounded by a finite limit, so it is finite. *)
Lemma SFsub_ge0 (x v : spec_float) (ml : positive) (el : Z) :
  valid_binary x = true -> valid_binary v = true ->
  SFleb (S754_zero false) x = true ->
  SFltb (S754_zero false) v = true ->
  SFltb x v = false ->
  SFltb (S754_finite false ml el) v = false ->
  SFleb (S754_zero false) (SF64sub x v) = true.
Proof.
  unfold SF64sub, SFsub.
  destruct x as [sx|sx| |sx mx ex], v as [sv|sv| |sv mv ev];
    try destruct sx; try destruct sv; try discriminate; try reflexivity.
  intros Hx Hv _ _ Hlt _. apply binary_normalize_ge0.
  pose proof (aligned_mantissas_ge mx mv ex ev Hx Hv Hlt).
  simpl cond_Zopp. lia.
Qed.

End Binary64Numbers.

Lemma float_add_ge0 (x v : float) :
  (0 <=? x)%float = true -> (0 <? v)%float = true ->
  (0 <=? x + v)%float = true.
Proof.
  rewrite !leb_spec, ltb_spec, add_spec, Prim2SF_zero. apply SFadd_ge0.
Qed.

Lemma float_sub_ge0 (x v : float) :
  (0 <=? x)%float = true -> (0 <? v)%float = true ->
  (x <? v)%float = false -> (500 <? v)%float = false ->
  (0 <=? x - v)%float = true.
Proof.
  rewrite !leb_spec, !ltb_spec, sub_spec, Prim2SF_zero.
  intros H1 H2 H3 H4.
  eapply SFsub_ge0; try apply Prim2SF_valid; try eassumption.
  exact H4.
Qed.

(** ** desafio.py: the script *)
Section ScriptProps.
Context {L : PyLib} {T : PyShellLib}.

(** A property of the variables that every branch of the loop keeps holds
    when the loop ends, however it ends. *)
Lemma Script_loop_invariant (P : Script.Estado -> Prop) :
  (forall st v, P st -> P (Script.opcao_d st v)) ->
  (forall st v, P st -> P (Script.opcao_s st v)) ->
  (forall st,
     P st ->
     P (Script.imprime st
          (Script.exibir_extrato (Script.saldo st) (Script.extrato st)))) ->
  (forall st, P st -> P (Script.imprime st Script.SDespedida)) ->
  (forall st, P st -> P (Script.imprime st Script.SOperacaoInvalida)) ->
  forall entrada st, P st -> P (snd (Script.loop entrada st)).
Proof.
  intros Hd Hs He Hq Hi entrada.
  remember (List.length entrada) as n eqn:Hn.
  revert entrada Hn.
  induction n as [n IH] using lt_wf_ind. intros entrada Hn st Hst.
  destruct entrada as [|linha resto]; [exact Hst|].
  simpl in Hn. simpl.
  destruct (String.eqb (str_lower linha) "d").
  { destruct resto as [|texto resto']; [exact Hst|].
    destruct (parse_float texto) as [valor|]; [|exact Hst].
    simpl in Hn. apply (IH (List.length resto')); auto. lia. }
  destruct (String.eqb (str_lower linha) "s").
  { destruct resto as [|texto resto']; [exact Hst|].
    destruct (parse_float texto) as [valor|]; [|exact Hst].
    simpl in Hn. apply (IH (List.length resto')); auto. lia. }
  destruct (String.eqb (str_lower linha) "e").
  { apply (IH (List.length resto)); auto. lia. }
  destruct (String.eqb (str_lower linha) "q").
  { simpl. auto. }
  apply (IH (List.length resto)); auto. lia.
Qed.

Lemma Script_opcao_d_run (st : Script.Estado) (v : float) :
  Script.opcao_d st v =
  if (0 <? v)%float
  then {| Script.saldo := (Script.saldo st + v)%float;
          Script.extrato :=
            (Script.extrato st ++ "Depósito: R$ " ++ format_2f v
             ++ Desafio.nl)%string;
          Script.numero_saques := Script.numero_saques st;
          Script.impresso :=
            Script.impresso st ++ [Script.SMensagem MsgDepositoRealizado] |}
  else Script.imprime st (Script.SMensagem MsgValorInvalido).
Proof.
  unfold Script.opcao_d, Desafio.depositar.
  destruct (0 <? v)%float; reflexivity.
Qed.

(** The withdrawal branch: the one case that moves the variables, and the
    four refusals, which only print. *)
Lemma Script_opcao_s_run (st : Script.Estado) (v : float) :
  (exists m,
     m <> MsgSaqueRealizado /\ m <> MsgDepositoRealizado /\
     Script.opcao_s st v = Script.imprime st (Script.SMensagem m)) \/
  ((Script.saldo st <? v)%float = false /\
   (500 <? v)%float = false /\
   (Script.numero_saques st < 3)%Z /\
   (0 <? v)%float = true /\
   Script.opcao_s st v =
   {| Script.saldo := (Script.saldo st - v)%float;
      Script.extrato :=
        (Script.extrato st ++ "Saque: R$ " ++ format_2f v
         ++ Desafio.nl)%string;
      Script.numero_saques := (Script.numero_saques st + 1)%Z;
      Script.impresso :=
        Script.impresso st ++ [Script.SMensagem MsgSaqueRealizado] |}).
Proof.
  unfold Script.opcao_s, Desafio.sacar, Script.limite, Script.LIMITE_SAQUES.
  destruct (Script.saldo st <? v)%float eqn:H1.
  { left. exists MsgSaldoInsuficiente. repeat split; discriminate. }
  destruct (500 <? v)%float eqn:H2.
  { left. exists MsgExcedeLimite. repeat split; discriminate. }
  destruct (3 <=? Script.numero_saques st)%Z eqn:H3.
  { left. exists MsgExcedeSaques. repeat split; discriminate. }
  destruct (0 <? v)%float eqn:H4.
  - right. apply Z.leb_gt in H3. repeat split; auto.
  - left. exists MsgValorInvalido. repeat split; discriminate.
Qed.

(** X18.  The balance of the script is a number that is at least zero, at the
    end of every run. *)
Theorem Script_saldo_ge_zero (entrada : list string) :
  (0 <=? Script.saldo (snd (Script.main entrada)))%float = true.
Proof.
  unfold Script.main.
  apply (Script_loop_invariant
           (fun st => (0 <=? Script.saldo st)%float = true)); auto.
  - intros st v H. rewrite Script_opcao_d_run.
    destruct (0 <? v)%float eqn:Hv; simpl; auto.
    now apply float_add_ge0.
  - intros st v H.
    destruct (Script_opcao_s_run st v)
      as [(m & _ & _ & ->)|(H1 & H2 & _ & H4 & ->)]; simpl; auto.
    now apply float_sub_ge0.
Qed.

(** Number of withdrawals the script has reported as made. *)
Lemma Script_count_snoc (l : list Script.Saida) (x : Script.Saida) :
  Script.saques_realizados (l ++ [x])
  = (Script.saques_realizados l + Script.saques_realizados [x])%nat.
Proof.
  unfold Script.saques_realizados. rewrite filter_app, length_app.
  reflexivity.
Qed.

(** X19.  [numero_saques] is the number of withdrawals made so far in the run,
    and it never exceeds [LIMITE_SAQUES]: the counter is never reset, so at
    most three withdrawals succeed in a run of the script. *)
Theorem Script_at_most_three_withdrawals (entrada : list string) :
  let st := snd (Script.main entrada) in
  Script.numero_saques st
  = Z.of_nat (Script.saques_realizados (Script.impresso st)) /\
  (Script.numero_saques st <= Script.LIMITE_SAQUES)%Z.
Proof.
  unfold Script.main.
  apply (Script_loop_invariant
           (fun st =>
              Script.numero_saques st
              = Z.of_nat (Script.saques_realizados (Script.impresso st)) /\
              (Script.numero_saques st <= Script.LIMITE_SAQUES)%Z));
    unfold Script.LIMITE_SAQUES.
  - intros st v [H1 H2]. rewrite Script_opcao_d_run.
    destruct (0 <? v)%float; simpl; rewrite Script_count_snoc;
      unfold Script.saques_realizados at 2; simpl; lia.
  - intros st v [H1 H2].
    destruct (Script_opcao_s_run st v)
      as [(m & Hm & _ & ->)|(_ & _ & H3 & _ & ->)]; simpl;
      rewrite Script_count_snoc; unfold Script.saques_realizados at 2.
    + destruct m; simpl; try lia. congruence.
    + simpl. lia.
  - intros st [H1 H2]. simpl. rewrite Script_count_snoc.
    unfold Script.saques_realizados at 2, Script.exibir_extrato. simpl. lia.
  - intros st [H1 H2]. simpl. rewrite Script_count_snoc.
    unfold Script.saques_realizados at 2. simpl. lia.
  - intros st [H1 H2]. simpl. rewrite Script_count_snoc.
    unfold Script.saques_realizados at 2. simpl. lia.
  - simpl. split; [reflexivity|lia].
Qed.

(** Splitting a list that was extended by one element around one of its
    elements. *)
Lemma app_snoc_inv {A : Type} (l : list A) (x : A) (pre : list A) (y : A)
  (post : list A) :
  l ++ [x] = pre ++ y :: post ->
  (post = [] /\ x = y /\ l = pre) \/
  (exists post', post = post' ++ [x] /\ l = pre ++ y :: post').
Proof.
  destruct post as [|z post' _] using rev_ind; intros H.
  - apply app_inj_tail in H. destruct H as [-> ->]. auto.
  - right. exists post'.
    change (pre ++ y :: post' ++ [z]) with (pre ++ (y :: post') ++ [z]) in H.
    rewrite app_assoc in H. apply app_inj_tail in H.
    destruct H as [-> ->]. auto.
Qed.

Lemma string_app_nonempty (s : string) (c : ascii) (r : string) :
  String.eqb (s ++ String c r) "" = false.
Proof. destruct s; reflexivity. Qed.

Lemma Script_coerente_imprime (st : Script.Estado) (x : Script.Saida) :
  Script.eh_movimento x = false ->
  (forall corpo s,
     x = Script.SExtrato corpo s ->
     corpo = None <-> String.eqb (Script.extrato st) "" = true) ->
  Script.coerente st -> Script.coerente (Script.imprime st x).
Proof.
  intros Hx Hex [H1 H2]. split; simpl.
  - rewrite existsb_app. simpl. rewrite Hx. simpl. rewrite orb_false_r.
    exact H1.
  - intros pre corpo s post Heq.
    apply app_snoc_inv in Heq.
    destruct Heq as [(_ & Hxe & <-)|(post' & _ & Heq)].
    + rewrite (Hex corpo s Hxe), H1.
      destruct (existsb Script.eh_movimento (Script.impresso st));
        simpl; split; congruence.
    + now apply (H2 pre corpo s post').
Qed.

Lemma Script_coerente_movimento (st : Script.Estado) (sd : float)
  (c : ascii) (r : string) (n : Z) (x : Script.Saida) :
  Script.eh_movimento x = true ->
  Script.coerente st ->
  Script.coerente
    {| Script.saldo := sd;
       Script.extrato := (Script.extrato st ++ String c r)%string;
       Script.numero_saques := n;
       Script.impresso := Script.impresso st ++ [x] |}.
Proof.
  intros Hx [H1 H2]. split; simpl.
  - rewrite existsb_app. simpl. rewrite Hx. simpl. rewrite orb_true_r.
    apply string_app_nonempty.
  - intros pre corpo s post Heq.
    apply app_snoc_inv in Heq.
    destruct Heq as [(_ & Hxe & _)|(post' & _ & Heq)].
    + subst x. discriminate.
    + now apply (H2 pre corpo s post').
Qed.

(** X20.  Whenever the script prints a statement, it prints the line that says
    there were no movements exactly when no deposit and no withdrawal had
    been reported as made before. *)
Theorem Script_statement_empty_iff_no_movement (entrada : list string)
  (pre : list Script.Saida) (corpo : option string) (s : float)
  (post : list Script.Saida) :
  Script.impresso (snd (Script.main entrada))
  = pre ++ Script.SExtrato corpo s :: post ->
  (corpo = None <-> existsb Script.eh_movimento pre = false).
Proof.
  revert pre corpo s post.
  assert (H : Script.coerente (snd (Script.main entrada))).
  { unfold Script.main. apply Script_loop_invariant.
    - intros st v H. rewrite Script_opcao_d_run.
      destruct (0 <? v)%float.
      + now apply Script_coerente_movimento.
      + apply Script_coerente_imprime; auto. discriminate.
    - intros st v H.
      destruct (Script_opcao_s_run st v)
        as [(m & Hm1 & Hm2 & ->)|(_ & _ & _ & _ & ->)].
      + apply Script_coerente_imprime; auto; [|discriminate].
        destruct m; auto; congruence.
      + now apply Script_coerente_movimento.
    - intros st H. apply Script_coerente_imprime; auto.
      intros corpo s Heq. unfold Script.exibir_extrato in Heq.
      injection Heq as <- _.
      destruct (String.eqb (Script.extrato st) ""); split; congruence.
    - intros st H. apply Script_coerente_imprime; auto. discriminate.
    - intros st H. apply Script_coerente_imprime; auto. discriminate.
    - split; [reflexivity|]. intros [|? ?] ? ? ? Heq; discriminate. }
  exact (proj2 H).
Qed.

End ScriptProps.

(** ** Sequences of transactions on one account *)
Section Sequencias.
Context {L : PyLib}.

(** The account methods print one message, which tells whether the call
    was accepted, and leave the clock as it is. *)
Lemma Conta_sacar_out (valor : float) (w : Mundo) :
  let r := Conta.sacar valor w in
  relogio (snd r) = relogio w /\
  exists m, saida (snd r) = saida w ++ [m] /\
            m <> MsgExcedeSaques /\
            fst r = mensagem_de_sucesso m.
Proof.
  simpl. rewrite Conta_sacar_run.
  destruct (valor <=? 0)%float; [|destruct (saldo (conta w) <? valor)%float];
    simpl; (split; [reflexivity|]); eexists;
    (split; [reflexivity|]); split; try discriminate; reflexivity.
Qed.

Lemma operacao_da_conta_out (t : Transacao) (w : Mundo) :
  let r := operacao_da_conta t w in
  relogio (snd r) = relogio w /\
  exists m, saida (snd r) = saida w ++ [m] /\
            fst r = mensagem_de_sucesso m /\
            (m = MsgExcedeSaques ->
             exists limite limite_saques,
               classe (conta w) = ClasseContaCorrente limite limite_saques /\
               (limite_saques
                <=? Z.of_nat (saques_do_dia (hoje w)
                                (historico (conta w))))%Z = true).
Proof.
  destruct t as [v|v]; simpl.
  - unfold conta_sacar, get_conta, bind.
    destruct (classe (conta w)) as [|limite limite_saques] eqn:Hc.
    + destruct (Conta_sacar_out v w) as (Hr & m & Hm & Hn & Hs).
      split; [exact Hr|]. exists m. repeat split; auto. congruence.
    + rewrite ContaCorrente_sacar_run.
      destruct (limite <? v)%float.
      { simpl. split; [reflexivity|]. eexists. split; [reflexivity|].
        split; [reflexivity|discriminate]. }
      destruct (limite_saques <=? _)%Z eqn:Hl.
      { simpl. split; [reflexivity|]. eexists. split; [reflexivity|].
        split; [reflexivity|]. intros _. eauto. }
      destruct (Conta_sacar_out v (apos_relogio w)) as (Hr & m & Hm & Hn & Hs).
      split; [exact Hr|]. exists m. repeat split; auto. congruence.
  - unfold conta_depositar. rewrite Conta_depositar_run.
    destruct (v <=? 0)%float; simpl; (split; [reflexivity|]); eexists;
      (split; [reflexivity|]); split; try reflexivity; discriminate.
Qed.

(** [realizar_transacao] in full: the clock, the number and the class of
    the account stay; one message is printed, a message of success exactly
    when the result is [True]; a refused call leaves the account as it
    was; an accepted one found fewer than two records of the day and adds
    the record of the transaction, stamped with a reading of the clock. *)
Lemma realizar_transacao_cases (self : Cliente) (t : Transacao) (w : Mundo) :
  let r := Cliente.realizar_transacao self t w in
  relogio (snd r) = relogio w /\
  numero (conta (snd r)) = numero (conta w) /\
  classe (conta (snd r)) = classe (conta w) /\
  (exists m, saida (snd r) = saida w ++ [m] /\
             fst r = mensagem_de_sucesso m /\
             (m = MsgExcedeSaques ->
              exists limite limite_saques,
                classe (conta w)
                = ClasseContaCorrente limite limite_saques /\
                (limite_saques
                 <=? Z.of_nat
                       (saques_do_dia
                          (dt_date (relogio w (S (tique w))))
                          (historico (conta w))))%Z = true /\
                (List.length (do_dia (hoje w) (historico (conta w))) < 2)%nat))
  /\
  (if fst r
   then (List.length (do_dia (hoje w) (historico (conta w))) < 2)%nat /\
        exists n, historico (conta (snd r))
                  = historico (conta w) ++ [registro_de t (relogio w n)]
   else conta (snd r) = conta w).
Proof.
  cbv zeta. rewrite realizar_transacao_run.
  destruct (2 <=? _)%nat eqn:Hcap.
  { simpl. repeat split; auto. eexists. split; [reflexivity|].
    split; [reflexivity|discriminate]. }
  apply Nat.leb_gt in Hcap.
  rewrite registrar_run.
  destruct (operacao_da_conta_frame t (apos_relogio w)) as (Hh & Hc & Hn & Hf).
  destruct (operacao_da_conta_out t (apos_relogio w))
    as (Hr & m & Hm & Hs & Hx).
  simpl in Hh, Hc, Hn, Hf, Hr, Hm, Hx.
  destruct (fst (operacao_da_conta t (apos_relogio w))) eqn:Hb; simpl.
  - rewrite Hh, Hc, Hn, Hr. repeat split; auto.
    + exists m. repeat split; auto.
      intros Hmx. destruct (Hx Hmx) as (l & ls & H1 & H2). eauto 6.
    + eexists. reflexivity.
  - rewrite Hc, Hn, Hr. repeat split; auto.
    exists m. repeat split; auto.
    intros Hmx. destruct (Hx Hmx) as (l & ls & H1 & H2). eauto 6.
Qed.

Lemma executar_cases (op : Operacao) (w : Mundo) :
  let r := executar op w in
  relogio (snd r) = relogio w /\
  numero (conta (snd r)) = numero (conta w) /\
  classe (conta (snd r)) = classe (conta w) /\
  (historico (conta (snd r)) = historico (conta w) \/
   exists t n,
     (List.length (do_dia (hoje w) (historico (conta w))) < 2)%nat /\
     historico (conta (snd r))
     = historico (conta w) ++ [registro_de t (relogio w n)]).
Proof.
  destruct op as [v|v|c t]; simpl.
  - destruct (conta_sacar_frame v w) as (Hh & Hc & Hn & _).
    destruct (operacao_da_conta_out (Saque v) w) as (Hr & _).
    simpl in *. auto.
  - destruct (conta_depositar_frame v w) as (Hh & Hc & Hn & _).
    destruct (operacao_da_conta_out (Deposito v) w) as (Hr & _).
    simpl in *. auto.
  - destruct (realizar_transacao_cases c t w) as (Hr & Hn & Hc & _ & Hcase).
    repeat split; auto.
    destruct (fst (Cliente.realizar_transacao c t w)).
    + destruct Hcase as (Hlt & n & Hh). right. eauto.
    + left. now rewrite Hcase.
Qed.

(** X1.  Whatever is done to an account, its history only grows at the end,
    by records of the two kinds of transaction; its number and its class,
    so its limits, never change. *)
Theorem historico_only_grows (ops : list Operacao) (w : Mundo) :
  let w' := snd (executar_todas ops w) in
  (exists novos,
     historico (conta w') = historico (conta w) ++ novos /\
     Forall (fun r => tipo r = "Saque"%string \/ tipo r = "Deposito"%string)
       novos) /\
  numero (conta w') = numero (conta w) /\
  classe (conta w') = classe (conta w).
Proof.
  revert w. induction ops as [|op ops IH]; intros w; simpl.
  - split; [|auto]. exists []. now rewrite app_nil_r.
  - unfold bind. destruct (executar op w) as [b w1] eqn:He.
    destruct (executar_cases op w) as (_ & Hn & Hc & Hh).
    rewrite He in Hn, Hc, Hh. simpl in Hn, Hc, Hh.
    destruct (IH w1) as ((novos & Hnov & Hall) & Hn' & Hc').
    split; [|split; congruence].
    destruct Hh as [Hh|(t & n & _ & Hh)]; rewrite Hh in Hnov.
    + eauto.
    + exists (registro_de t (relogio w n) :: novos). split.
      * rewrite Hnov, <- app_assoc. reflexivity.
      * constructor; [|exact Hall]. destruct t; simpl; auto.
Qed.

Lemma do_dia_snoc_le (d : date) (h : list registro) (x : registro) :
  (List.length (do_dia d (h ++ [x])) <= S (List.length (do_dia d h)))%nat.
Proof.
  unfold do_dia. rewrite filter_app, length_app. simpl.
  destruct (eh_do_dia d x); simpl; lia.
Qed.

Lemma executar_todas_relogio (ops : list Operacao) (w : Mundo) :
  relogio (snd (executar_todas ops w)) = relogio w.
Proof.
  revert w. induction ops as [|op ops IH]; intros w; simpl; [reflexivity|].
  unfold bind. destruct (executar op w) as [b w1] eqn:He.
  rewrite IH. destruct (executar_cases op w) as (Hr & _).
  now rewrite He in Hr.
Qed.

Lemma executar_todas_count_le (d : date) (ops : list Operacao)
  (w : Mundo) :
  (forall n, dt_date (relogio w n) = d) ->
  (List.length (do_dia d (historico (conta w))) <= 2)%nat ->
  (List.length
     (do_dia d (historico (conta (snd (executar_todas ops w))))) <= 2)%nat.
Proof.
  revert w. induction ops as [|op ops IH]; intros w Hd Hw; simpl; [exact Hw|].
  unfold bind. destruct (executar op w) as [b w1] eqn:He.
  destruct (executar_cases op w) as (Hr & _ & _ & Hh).
  rewrite He in Hr, Hh. simpl in Hr, Hh.
  apply IH.
  - intros n. rewrite Hr. apply Hd.
  - destruct Hh as [Hh|(t & n & Hlt & Hh)]; rewrite Hh; [exact Hw|].
    unfold hoje in Hlt. rewrite Hd in Hlt.
    pose proof (do_dia_snoc_le d (historico (conta w))
                  (registro_de t (relogio w n))). lia.
Qed.

Lemma do_dia_snoc_today (d : date) (h : list registro) (t : Transacao)
  (agora : datetime) :
  (exists dt, strptime (strftime agora) = Some dt /\ dt_date dt = d) ->
  List.length (do_dia d (h ++ [registro_de t agora]))
  = S (List.length (do_dia d h)).
Proof.
  intros (dt & Hp & Hd). unfold do_dia.
  rewrite filter_app, length_app. simpl.
  unfold eh_do_dia. simpl. rewrite Hp, Hd.
  replace (date_eqb d d) with true
    by (symmetry; now apply date_eqb_eq).
  simpl. lia.
Qed.

(** When the timestamps written are read back to the day, every record
    added to the history is one more record of the day. *)
Lemma executar_todas_all_counted (d : date) (ops : list Operacao)
  (w : Mundo) :
  (forall n, exists dt, strptime (strftime (relogio w n)) = Some dt /\
                        dt_date dt = d) ->
  let h := historico (conta w) in
  let h' := historico (conta (snd (executar_todas ops w))) in
  (List.length h' + List.length (do_dia d h)
   = List.length h + List.length (do_dia d h'))%nat.
Proof.
  revert w. induction ops as [|op ops IH]; intros w Hrt; simpl;
    [reflexivity|].
  unfold bind. destruct (executar op w) as [b w1] eqn:He.
  destruct (executar_cases op w) as (Hr & _ & _ & Hh).
  rewrite He in Hr, Hh. simpl in Hr, Hh.
  assert (Hrt1 : forall n, exists dt,
             strptime (strftime (relogio w1 n)) = Some dt /\ dt_date dt = d)
    by (intros n; rewrite Hr; apply Hrt).
  specialize (IH w1 Hrt1). simpl in IH.
  destruct Hh as [Hh|(t & n & _ & Hh)]; rewrite Hh in IH; [exact IH|].
  rewrite (do_dia_snoc_today d _ t _ (Hrt n)), length_app in IH.
  simpl in IH. lia.
Qed.

(** X2.  On an account used through [conta.sacar], [conta.depositar] and
    [cliente.realizar_transacao] (the operations of [Operacao]; a direct
    call of [transacao.registrar] is not among them and is not limited),
    while every reading of the clock is of the day [d]: the number of
    records of the history that count for [d] (their date text parses to
    [d]) never goes above two if it started at two or less; and when the
    timestamps the program writes are read back to [d], the history as a
    whole gains at most two records less those of [d] it already had, so a
    new account never holds more than two records. *)
Theorem at_most_two_records_a_day (d : date) (ops : list Operacao)
  (w : Mundo) :
  (forall n, dt_date (relogio w n) = d) ->
  (List.length (do_dia d (historico (conta w))) <= 2)%nat ->
  let h := historico (conta w) in
  let h' := historico (conta (snd (executar_todas ops w))) in
  (List.length (do_dia d h') <= 2)%nat /\
  ((forall n, exists dt, strptime (strftime (relogio w n)) = Some dt /\
                         dt_date dt = d) ->
   (List.length h' + List.length (do_dia d h) <= List.length h + 2)%nat).
Proof.
  intros Hd Hw h h'.
  pose proof (executar_todas_count_le d ops w Hd Hw) as Hle.
  split; [exact Hle|]. intros Hrt.
  pose proof (executar_todas_all_counted d ops w Hrt) as Heq.
  simpl in Heq. subst h h'. lia.
Qed.

Lemma conta_sacar_corrente (v : float) (w : Mundo) (limite : float)
  (limite_saques : Z) :
  classe (conta w) = ClasseContaCorrente limite limite_saques ->
  conta_sacar v w = ContaCorrente.sacar limite limite_saques v w.
Proof.
  intros Hc. unfold conta_sacar, get_conta, bind. now rewrite Hc.
Qed.

Lemma numero_saques_le (l : list registro) :
  (ContaCorrente.numero_saques l <= List.length l)%nat.
Proof. unfold ContaCorrente.numero_saques. apply filter_length_le. Qed.

(** X4.  Through [realizar_transacao], on a current account that allows at
    least two withdrawals a day, the refusal for too many withdrawals never
    happens as long as the two readings of the clock made by the call fall
    on the same day: the client's limit of two transactions a day is
    reached first. *)
Theorem daily_withdrawal_limit_shadowed (self : Cliente) (t : Transacao)
  (w : Mundo) (limite : float) (limite_saques : Z) :
  classe (conta w) = ClasseContaCorrente limite limite_saques ->
  (2 <= limite_saques)%Z ->
  dt_date (relogio w (S (tique w))) = dt_date (relogio w (tique w)) ->
  exists m,
    saida (snd (Cliente.realizar_transacao self t w)) = saida w ++ [m] /\
    m <> MsgExcedeSaques.
Proof.
  intros Hc Hls Hday.
  destruct (realizar_transacao_cases self t w)
    as (_ & _ & _ & (m & Hm & _ & Hx) & _).
  exists m. split; [exact Hm|]. intros Hmx.
  destruct (Hx Hmx) as (l & ls & Hc' & Hle & Hlt).
  rewrite Hc in Hc'. injection Hc' as <- <-.
  apply Z.leb_le in Hle. rewrite Hday in Hle. fold (hoje w) in Hle.
  pose proof (numero_saques_le (do_dia (hoje w) (historico (conta w)))).
  unfold saques_do_dia in Hle. lia.
Qed.

(** X5.  Every call of [realizar_transacao] prints exactly one message, one of
    the two messages of success exactly when it returns [True]; when it
    returns [False] the account is left as it was. *)
Theorem realizar_transacao_reports (self : Cliente) (t : Transacao)
  (w : Mundo) :
  let r := Cliente.realizar_transacao self t w in
  exists m,
    saida (snd r) = saida w ++ [m] /\
    fst r = mensagem_de_sucesso m /\
    (mensagem_de_sucesso m = false -> conta (snd r) = conta w).
Proof.
  destruct (realizar_transacao_cases self t w)
    as (_ & _ & _ & (m & Hm & Hs & _) & Hcase).
  exists m. repeat split; auto.
  intros Hf. rewrite <- Hs in Hf. cbv zeta in Hcase.
  now rewrite Hf in Hcase.
Qed.

(** X6.  A withdrawal that [realizar_transacao] accepts on a current account
    is of an amount that is not [<= 0], not above the limit and not above
    the balance; it was made with fewer than two transactions recorded that
    day, and the balance went down by the amount. *)
Theorem accepted_withdrawal_within_limits (self : Cliente) (v : float)
  (w : Mundo) (limite : float) (limite_saques : Z) :
  classe (conta w) = ClasseContaCorrente limite limite_saques ->
  fst (Cliente.realizar_transacao self (Saque v) w) = true ->
  (v <=? 0)%float = false /\
  (limite <? v)%float = false /\
  (saldo (conta w) <? v)%float = false /\
  (List.length (do_dia (hoje w) (historico (conta w))) < 2)%nat /\
  saldo (conta (snd (Cliente.realizar_transacao self (Saque v) w)))
  = (saldo (conta w) - v)%float.
Proof.
  intros Hc. rewrite realizar_transacao_run.
  destruct (2 <=? _)%nat eqn:Hcap; [discriminate|].
  apply Nat.leb_gt in Hcap.
  rewrite registrar_run. simpl operacao_da_conta.
  rewrite (conta_sacar_corrente v (apos_relogio w) limite limite_saques Hc).
  rewrite ContaCorrente_sacar_run.
  destruct (limite <? v)%float; [discriminate|].
  destruct (limite_saques <=? _)%Z; [discriminate|].
  rewrite Conta_sacar_run. simpl conta.
  destruct (v <=? 0)%float; [discriminate|].
  destruct (saldo (conta w) <? v)%float; [discriminate|].
  simpl. auto.
Qed.

(** X3.  With the clock within one day, and timestamps that [strptime] reads
    back to that day, two transactions accepted on an account make
    [realizar_transacao] refuse the next one, of either kind and whatever
    its amount: it returns [False], reports the daily limit and leaves the
    account as it was. *)
Theorem third_transaction_refused (d : date) (self : Cliente)
  (t1 t2 t3 : Transacao) (w : Mundo) :
  (forall n,
     dt_date (relogio w n) = d /\
     exists dt, strptime (strftime (relogio w n)) = Some dt /\
                dt_date dt = d) ->
  let r1 := Cliente.realizar_transacao self t1 w in
  let r2 := Cliente.realizar_transacao self t2 (snd r1) in
  let r3 := Cliente.realizar_transacao self t3 (snd r2) in
  fst r1 = true -> fst r2 = true ->
  fst r3 = false /\
  conta (snd r3) = conta (snd r2) /\
  saida (snd r3) = saida (snd r2) ++ [MsgExcedeTransacoes].
Proof.
  intros Hclock r1 r2 r3 H1 H2.
  destruct (realizar_transacao_cases self t1 w) as (Hr1 & _ & _ & _ & Hc1).
  fold r1 in Hr1, Hc1. rewrite H1 in Hc1.
  destruct Hc1 as (_ & n1 & Hh1).
  destruct (realizar_transacao_cases self t2 (snd r1))
    as (Hr2 & _ & _ & _ & Hc2).
  fold r2 in Hr2, Hc2. rewrite H2 in Hc2.
  destruct Hc2 as (_ & n2 & Hh2).
  assert (Hcount : (2 <= List.length
                          (do_dia d (historico (conta (snd r2)))))%nat).
  { rewrite Hh2, Hh1, Hr1.
    rewrite !do_dia_snoc_today by apply Hclock. lia. }
  subst r3. rewrite realizar_transacao_run.
  unfold hoje. rewrite Hr2, Hr1.
  replace (dt_date (relogio w (tique (snd r2)))) with d
    by (symmetry; apply Hclock).
  apply Nat.leb_le in Hcount. rewrite Hcount. simpl. auto.
Qed.

End Sequencias.

(** A deposit and two withdrawals on one day, with the reference library:
    the second withdrawal is the third transaction. *)
Lemma third_transaction_refused_witness :
  let w := mundo_inicial (ContaCorrente_init 1 500 3) RefLib.relogio_parado in
  let c := RefLib.cliente_exemplo in
  let r1 := Cliente.realizar_transacao (L := RefLib.lib) c (Deposito 1000) w in
  let r2 := Cliente.realizar_transacao (L := RefLib.lib) c (Saque 100)
              (snd r1) in
  let r3 := Cliente.realizar_transacao (L := RefLib.lib) c (Saque 100)
              (snd r2) in
  (forall n,
     dt_date (relogio w n) = dt_date RefLib.meio_dia /\
     exists dt,
       strptime (PyLib := RefLib.lib)
         (strftime (PyLib := RefLib.lib) (relogio w n)) = Some dt /\
       dt_date dt = dt_date RefLib.meio_dia) /\
  fst r1 = true /\ fst r2 = true /\
  fst r3 = false /\
  conta (snd r3) = conta (snd r2) /\
  saida (snd r3) = saida (snd r2) ++ [MsgExcedeTransacoes].
Proof.
  intros w c r1 r2 r3.
  assert (Hclock : forall n,
             dt_date (relogio w n) = dt_date RefLib.meio_dia /\
             exists dt,
               strptime (PyLib := RefLib.lib)
                 (strftime (PyLib := RefLib.lib) (relogio w n)) = Some dt /\
               dt_date dt = dt_date RefLib.meio_dia).
  { intros n. split; [reflexivity|]. exists RefLib.meio_dia.
    split; reflexivity. }
  split; [exact Hclock|]. split; [reflexivity|]. split; [reflexivity|].
  exact (third_transaction_refused (L := RefLib.lib)
           (dt_date RefLib.meio_dia) c (Deposito 1000) (Saque 100)
           (Saque 100) w Hclock eq_refl eq_refl).
Defined.

(** A withdrawal of 200 accepted on a balance of 1000. *)
Lemma accepted_withdrawal_within_limits_witness :
  let w := RefLib.mundo_exemplo 1000 [] in
  let r := Cliente.realizar_transacao (L := RefLib.lib)
             RefLib.cliente_exemplo (Saque 200) w in
  classe (conta w) = ClasseContaCorrente 500 3 /\
  fst r = true /\
  (200 <=? 0)%float = false /\
  (500 <? 200)%float = false /\
  (saldo (conta w) <? 200)%float = false /\
  (List.length (do_dia (L := RefLib.lib) (hoje w) (historico (conta w)))
   < 2)%nat /\
  saldo (conta (snd r)) = (saldo (conta w) - 200)%float.
Proof.
  intros w r. split; [reflexivity|]. split; [reflexivity|].
  exact (accepted_withdrawal_within_limits (L := RefLib.lib)
           RefLib.cliente_exemplo 200 w 500 3 eq_refl eq_refl).
Defined.

(** An account with three withdrawals recorded today and the limit of 3
    a day: called on the account, [sacar] refuses for the number of
    withdrawals; called through [realizar_transacao], the refusal is the
    client's, for the number of transactions. *)
Lemma daily_withdrawal_limit_shadowed_witness :
  let h := [registro_de (L := RefLib.lib) (Saque 10) RefLib.meio_dia;
            registro_de (L := RefLib.lib) (Saque 20) RefLib.meio_dia;
            registro_de (L := RefLib.lib) (Saque 30) RefLib.meio_dia] in
  let w := RefLib.mundo_exemplo 1000 h in
  let r := Cliente.realizar_transacao (L := RefLib.lib)
             RefLib.cliente_exemplo (Saque 100) w in
  classe (conta w) = ClasseContaCorrente 500 3 /\
  (2 <= 3)%Z /\
  dt_date (relogio w (S (tique w))) = dt_date (relogio w (tique w)) /\
  saida (snd (conta_sacar (L := RefLib.lib) 100 w)) = [MsgExcedeSaques] /\
  saida (snd r) = [MsgExcedeTransacoes] /\
  exists m, saida (snd r) = saida w ++ [m] /\ m <> MsgExcedeSaques.
Proof.
  intros h w r. split; [reflexivity|]. split; [lia|].
  split; [reflexivity|]. split; [reflexivity|]. split; [reflexivity|].
  exact (daily_withdrawal_limit_shadowed (L := RefLib.lib)
           RefLib.cliente_exemplo (Saque 100) w 500 3 eq_refl
           (proj1 (Z.leb_le 2 3) eq_refl) eq_refl).
Defined.

(** A new account on which four transactions are attempted through the
    client on one day, between direct calls of the account methods: two
    records are written and no more. *)
Lemma at_most_two_records_a_day_witness :
  let d := dt_date RefLib.meio_dia in
  let w := mundo_inicial (ContaCorrente_init 1 500 3)
             RefLib.relogio_parado in
  let ops := [OpRealizar RefLib.cliente_exemplo (Deposito 1000);
              OpDepositar 7;
              OpRealizar RefLib.cliente_exemplo (Saque 100);
              OpSacar 5;
              OpRealizar RefLib.cliente_exemplo (Saque 100);
              OpRealizar RefLib.cliente_exemplo (Deposito 1)] in
  let h := historico (conta w) in
  let h' := historico (conta (snd (executar_todas (L := RefLib.lib) ops w))) in
  (forall n, dt_date (relogio w n) = d) /\
  (List.length (do_dia (L := RefLib.lib) d h) <= 2)%nat /\
  (forall n, exists dt,
     strptime (PyLib := RefLib.lib)
       (strftime (PyLib := RefLib.lib) (relogio w n)) = Some dt /\
     dt_date dt = d) /\
  List.length h' = 2%nat /\
  (List.length (do_dia (L := RefLib.lib) d h') <= 2)%nat /\
  (List.length h' + List.length (do_dia (L := RefLib.lib) d h)
   <= List.length h + 2)%nat.
Proof.
  intros d w ops h h'.
  assert (H1 : forall n, dt_date (relogio w n) = d) by reflexivity.
  assert (H2 : (List.length (do_dia (L := RefLib.lib) d h) <= 2)%nat)
    by (vm_compute; lia).
  assert (H3 : forall n, exists dt,
             strptime (PyLib := RefLib.lib)
               (strftime (PyLib := RefLib.lib) (relogio w n)) = Some dt /\
             dt_date dt = d).
  { intros n. exists RefLib.meio_dia. split; reflexivity. }
  split; [exact H1|]. split; [exact H2|]. split; [exact H3|].
  split; [reflexivity|].
  pose proof (at_most_two_records_a_day (L := RefLib.lib) d ops w H1 H2)
    as [Ha Hb].
  split; [exact Ha|exact (Hb H3)].
Defined.

(** [registrar] called directly does not go through the client's limit:
    on an account with two records today, a deposit registered directly is
    made and recorded, the third record of the day. *)
Example registrar_directly_is_not_limited :
  let h := [registro_de (L := RefLib.lib) (Deposito 10) RefLib.meio_dia;
            registro_de (L := RefLib.lib) (Saque 5) RefLib.meio_dia] in
  let w := RefLib.mundo_exemplo 5 h in
  let r := transacao_registrar (L := RefLib.lib) (Deposito 1) w in
  fst (Cliente.realizar_transacao (L := RefLib.lib)
         RefLib.cliente_exemplo (Deposito 1) w) = false /\
  fst r = true /\
  List.length
    (do_dia (L := RefLib.lib) (dt_date RefLib.meio_dia)
       (historico (conta (snd r)))) = 3%nat.
Proof. vm_compute. repeat split. Qed.

(** ** The iterator over the accounts and the search for a client *)

Lemma skipn_nth_error {A : Type} (l : list A) (i : nat) (x : A) :
  nth_error l i = Some x -> skipn i l = x :: skipn (S i) l.
Proof.
  revert i. induction l as [|a l IH]; intros [|i] H; simpl in *;
    try discriminate.
  - now injection H as ->.
  - now apply IH.
Qed.

Lemma percorrer_from (fuel : nat) (cs : list Conta) (i : nat) :
  percorrer fuel {| it_contas := cs; _index := i |}
  = firstn fuel (skipn i cs).
Proof.
  revert i. induction fuel as [|fuel IH]; intros i; simpl; [reflexivity|].
  unfold ContasIterador_next. simpl.
  destruct (List.length cs <=? i)%nat eqn:Hi.
  - apply Nat.leb_le in Hi. now rewrite skipn_all2.
  - apply Nat.leb_gt in Hi.
    destruct (nth_error cs i) as [c|] eqn:Hc.
    + rewrite IH, (skipn_nth_error cs i c Hc). reflexivity.
    + apply nth_error_None in Hc. lia.
Qed.

(** X7.  A loop over [ContasIterador(contas)] gets the accounts of the list,
    each once and in the order of the list, and then stops; once the index
    has reached the end of the list, [__next__] stops again at every
    call. *)
Theorem ContasIterador_yields_all (cs : list Conta) :
  (forall fuel, percorrer fuel (ContasIterador_init cs) = firstn fuel cs) /\
  percorrer (S (List.length cs)) (ContasIterador_init cs) = cs /\
  (forall i, ContasIterador_next {| it_contas := cs; _index := i |} = None
             <-> (List.length cs <= i)%nat).
Proof.
  split; [|split].
  - intros fuel. unfold ContasIterador_init. now rewrite percorrer_from.
  - unfold ContasIterador_init. rewrite percorrer_from. simpl skipn.
    apply firstn_all2. lia.
  - intros i. unfold ContasIterador_next. simpl.
    destruct (List.length cs <=? i)%nat eqn:Hi.
    + apply Nat.leb_le in Hi. tauto.
    + apply Nat.leb_gt in Hi.
      destruct (nth_error cs i) eqn:Hc.
      * split; [discriminate|lia].
      * apply nth_error_None in Hc. lia.
Qed.

Lemma filtrar_cliente_desde_spec (k : string) (clientes : list PessoaFisica)
  (i0 : nat) :
  match filtrar_cliente_desde i0 k clientes with
  | Some (i, c) =>
      (i0 <= i)%nat /\
      nth_error clientes (i - i0) = Some c /\ cpf c = k /\
      forall j c', (j < i - i0)%nat -> nth_error clientes j = Some c' ->
                   cpf c' <> k
  | None => forall c, In c clientes -> cpf c <> k
  end.
Proof.
  revert i0. induction clientes as [|c0 clientes IH]; intros i0; simpl.
  - intros c [].
  - destruct (String.eqb (cpf c0) k) eqn:Hk.
    + apply String.eqb_eq in Hk. rewrite Nat.sub_diag. simpl.
      repeat split; auto. intros j c' Hj. lia.
    + apply String.eqb_neq in Hk. specialize (IH (S i0)).
      destruct (filtrar_cliente_desde (S i0) k clientes) as [[i c]|].
      * destruct IH as (Hi & Hn & Hc & Hfirst).
        replace (i - i0)%nat with (S (i - S i0)) by lia. simpl.
        repeat split; auto; try lia.
        intros [|j] c' Hj Hj'; simpl in Hj'.
        -- now injection Hj' as <-.
        -- apply (Hfirst j c'); auto. lia.
      * intros c [<-|Hin]; auto.
Qed.

Lemma filtrar_cliente_spec (k : string) (clientes : list PessoaFisica) :
  match filtrar_cliente k clientes with
  | Some (i, c) =>
      nth_error clientes i = Some c /\ cpf c = k /\
      forall j c', (j < i)%nat -> nth_error clientes j = Some c' ->
                   cpf c' <> k
  | None => forall c, In c clientes -> cpf c <> k
  end.
Proof.
  unfold filtrar_cliente.
  pose proof (filtrar_cliente_desde_spec k clientes 0) as H.
  destruct (filtrar_cliente_desde 0 k clientes) as [[i c]|]; [|exact H].
  rewrite Nat.sub_0_r in H. tauto.
Qed.

(** X8.  [filtrar_cliente] finds a client exactly when some client of the list
    has the CPF, and then it is the first such client of the list; the CPF
    is compared as it is, character by character. *)
Theorem filtrar_cliente_first_match (k : string)
  (clientes : list PessoaFisica) :
  (filtrar_cliente k clientes = None <->
   forall c, In c clientes -> cpf c <> k) /\
  (forall i c,
     filtrar_cliente k clientes = Some (i, c) <->
     nth_error clientes i = Some c /\ cpf c = k /\
     forall j c', (j < i)%nat -> nth_error clientes j = Some c' ->
                  cpf c' <> k).
Proof.
  pose proof (filtrar_cliente_spec k clientes) as H.
  destruct (filtrar_cliente k clientes) as [[i c]|].
  - destruct H as (Hn & Hc & Hfirst). split.
    + split; [discriminate|]. intros Hall. exfalso.
      apply (Hall c); [|exact Hc]. eapply nth_error_In, Hn.
    + intros i' c'. split.
      * intros Heq. injection Heq as <- <-. auto.
      * intros (Hn' & Hc' & Hfirst').
        destruct (Nat.lt_trichotomy i i') as [Hlt|[<-|Hgt]].
        -- exfalso. now apply (Hfirst' i c Hlt Hn).
        -- rewrite Hn in Hn'. now injection Hn' as <-.
        -- exfalso. now apply (Hfirst i' c' Hgt Hn').
  - split; [tauto|]. intros i c. split; [discriminate|].
    intros (Hn & Hc & _). exfalso.
    apply (H c); [|exact Hc]. eapply nth_error_In, Hn.
Qed.

(** ** The menu *)
Section Menu.
Context {L : PyLib} {T : PyShellLib}.

Lemma atualiza_same {A : Type} (l : list A) (i : nat) (x : A) :
  nth_error l i = Some x -> atualiza i x l = l.
Proof.
  revert i. induction l as [|a l IH]; intros [|i] H; simpl in *;
    try discriminate; try reflexivity.
  - now injection H as ->.
  - now rewrite IH.
Qed.

Lemma atualiza_length {A : Type} (l : list A) (i : nat) (x : A) :
  List.length (atualiza i x l) = List.length l.
Proof.
  revert i. induction l as [|a l IH]; intros [|i]; simpl; auto.
Qed.

Lemma atualiza_nth_error {A : Type} (l : list A) (i j : nat) (x : A) :
  nth_error (atualiza i x l) j
  = if (j =? i)%nat
    then match nth_error l j with Some _ => Some x | None => None end
    else nth_error l j.
Proof.
  revert i j. induction l as [|a l IH]; intros [|i] [|j]; simpl; auto.
  - destruct (j =? i)%nat; reflexivity.
Qed.

Lemma mesmos_refl (b : Banco) : mesmos b b.
Proof. unfold mesmos. auto. Qed.

Lemma mesmos_trans (b0 b1 b2 : Banco) :
  mesmos b0 b1 -> mesmos b1 b2 -> mesmos b0 b2.
Proof.
  unfold mesmos. intros (H1 & H2 & H3 & H4) (H5 & H6 & H7 & H8).
  repeat split; try congruence. lia.
Qed.

Lemma mesmos_Passo (b0 b : Banco) : mesmos b0 b -> Passo b0 b.
Proof.
  intros (H1 & H2 & H3 & H4). split; [now apply ef_nada|auto].
Qed.

(** What comes after a step and only reads and prints keeps it a step. *)
Lemma Passo_then (b0 b1 b' : Banco) :
  Passo b0 b1 -> mesmos b1 b' -> Passo b0 b'.
Proof.
  intros (H1 & H2 & H3) (Hc & Ha & Hr & He). split; [|split].
  - destruct H1
      as [H1 H4|i cl t w H1 H4 H5 H6|p H1 H4 H5 H6 H7 H8|i p H1 H4 H5].
    + apply ef_nada; congruence.
    + apply (ef_transacao b0 b' i cl t w); congruence.
    + apply (ef_cliente b0 b' p); congruence.
    + apply (ef_conta b0 b' i p); congruence.
  - congruence.
  - lia.
Qed.

Lemma Neutro_ret {A : Type} (a : A) : Neutro (sh_ret a).
Proof. intros b. apply mesmos_refl. Qed.

Lemma Neutro_input : Neutro input.
Proof.
  intros b. unfold input, mesmos.
  destruct (b_entrada b) as [|l r] eqn:He; simpl; rewrite ?He; simpl; auto.
Qed.

Lemma Neutro_escreve (l : Linha) : Neutro (escreve l).
Proof. intros b. unfold mesmos. simpl. auto. Qed.

Lemma Neutro_agora : Neutro agora_sh.
Proof. intros b. unfold mesmos. simpl. auto. Qed.

Lemma Neutro_get_clientes : Neutro get_clientes.
Proof. intros b. apply mesmos_refl. Qed.

Lemma Neutro_get_contas : Neutro get_contas.
Proof. intros b. apply mesmos_refl. Qed.

Lemma Neutro_bind {A B : Type} (m : Sh A) (k : A -> Sh B) :
  Neutro m -> (forall a, Neutro (k a)) -> Neutro (sh_bind m k).
Proof.
  intros Hm Hk b. unfold sh_bind. specialize (Hm b).
  destruct (m b) as [[a|] b1]; simpl in *; [|exact Hm].
  eapply mesmos_trans; [exact Hm|apply Hk].
Qed.

Lemma Neutro_PassoDe {A : Type} (b0 : Banco) (m : Sh A) :
  Neutro m -> PassoDe b0 m.
Proof.
  intros Hm b Hb. apply mesmos_Passo.
  eapply mesmos_trans; [exact Hb|apply Hm].
Qed.

Lemma PassoDe_bind_neutro {A B : Type} (b0 : Banco) (m : Sh A)
  (k : A -> Sh B) :
  Neutro m -> (forall a, PassoDe b0 (k a)) -> PassoDe b0 (sh_bind m k).
Proof.
  intros Hm Hk b Hb. unfold sh_bind. specialize (Hm b).
  destruct (m b) as [[a|] b1]; simpl in *.
  - apply Hk. eapply mesmos_trans; eassumption.
  - apply mesmos_Passo. eapply mesmos_trans; eassumption.
Qed.

Lemma PassoDe_bind_then {A B : Type} (b0 : Banco) (m : Sh A)
  (k : A -> Sh B) :
  PassoDe b0 m -> (forall a, Neutro (k a)) -> PassoDe b0 (sh_bind m k).
Proof.
  intros Hm Hk b Hb. unfold sh_bind. specialize (Hm b Hb).
  destruct (m b) as [[a|] b1]; simpl in *; [|exact Hm].
  eapply Passo_then; [exact Hm|apply Hk].
Qed.

Lemma PassoDe_get_clientes {B : Type} (b0 : Banco)
  (k : list PessoaFisica -> Sh B) :
  PassoDe b0 (k (b_clientes b0)) -> PassoDe b0 (sh_bind get_clientes k).
Proof.
  intros Hk b Hb. unfold sh_bind, get_clientes.
  destruct Hb as (Hc & Hrest). rewrite Hc. apply Hk.
  unfold mesmos. tauto.
Qed.

Lemma PassoDe_get_contas {B : Type} (b0 : Banco) (k : list Conta -> Sh B) :
  PassoDe b0 (k (b_contas b0)) -> PassoDe b0 (sh_bind get_contas k).
Proof.
  intros Hk b Hb. unfold sh_bind, get_contas.
  destruct Hb as (Hc & Ha & Hrest). rewrite Ha. apply Hk.
  unfold mesmos. tauto.
Qed.

Lemma na_conta_run {A : Type} (ref : Z) (m : M A) (b : Banco) :
  na_conta ref m b =
  match posicao ref with
  | None => (None, b)
  | Some i =>
      match nth_error (b_contas b) i with
      | None => (None, b)
      | Some c =>
          let w0 := {| conta := c; relogio := b_relogio b;
                       tique := b_tique b; saida := [] |} in
          (Some (fst (m w0)),
           {| b_clientes := b_clientes b;
              b_contas := atualiza i (conta (snd (m w0))) (b_contas b);
              b_relogio := b_relogio b; b_tique := tique (snd (m w0));
              b_saida := b_saida b ++ map DaConta (saida (snd (m w0)));
              b_entrada := b_entrada b |})
      end
  end.
Proof.
  unfold na_conta. destruct (posicao ref) as [i|]; [|reflexivity].
  destruct (nth_error (b_contas b) i) as [c|]; [|reflexivity].
  simpl. destruct (m _) as [a w]. reflexivity.
Qed.

(** A method that leaves the account as it is leaves the lists of the
    bank as they are. *)
Lemma Neutro_na_conta {A : Type} (ref : Z) (m : M A) :
  (forall w, conta (snd (m w)) = conta w) -> Neutro (na_conta ref m).
Proof.
  intros Hm b. rewrite na_conta_run.
  destruct (posicao ref) as [i|]; [|apply mesmos_refl].
  destruct (nth_error (b_contas b) i) as [c|] eqn:Hc; [|apply mesmos_refl].
  unfold mesmos. simpl. rewrite Hm. simpl.
  rewrite (atualiza_same _ _ _ Hc). auto.
Qed.

Lemma PassoDe_realizar (b0 : Banco) (ref : Z) (cl : Cliente)
  (t : Transacao) :
  PassoDe b0 (na_conta ref (Cliente.realizar_transacao cl t)).
Proof.
  intros b (Hc & Ha & Hr & He). rewrite na_conta_run.
  destruct (posicao ref) as [i|]; [|apply mesmos_Passo; unfold mesmos; auto].
  destruct (nth_error (b_contas b) i) as [c|] eqn:Hn;
    [|apply mesmos_Passo; unfold mesmos; auto].
  simpl. split; [|split]; simpl; auto.
  eapply (ef_transacao b0 _ i cl t
            {| conta := c; relogio := b_relogio b; tique := b_tique b;
               saida := [] |}); simpl; try congruence.
Qed.

Ltac neutro :=
  repeat first
    [ apply Neutro_ret | apply Neutro_input | apply Neutro_escreve
    | apply Neutro_agora | apply Neutro_get_clientes
    | apply Neutro_get_contas
    | apply Neutro_bind; [|intros ?]
    | match goal with
      | |- Neutro (match ?x with _ => _ end) => destruct x
      | |- Neutro (if ?x then _ else _) => destruct x
      end ].

Lemma log_transacao_passo {A : Type} (b0 : Banco) (nome_func : string)
  (func : Sh A) :
  PassoDe b0 func -> PassoDe b0 (Sistema.log_transacao nome_func func).
Proof.
  intros H. unfold Sistema.log_transacao.
  apply PassoDe_bind_then; [exact H|]. intros a. neutro.
Qed.

Lemma Neutro_recuperar (cliente : PessoaFisica) :
  Neutro (Sistema.recuperar_conta_cliente cliente).
Proof. unfold Sistema.recuperar_conta_cliente. neutro. Qed.

Lemma transacao_func_passo (b0 : Banco) (nova : float -> Transacao) :
  PassoDe b0 (Sistema.transacao_func nova).
Proof.
  unfold Sistema.transacao_func.
  apply PassoDe_bind_neutro; [neutro|]. intros k.
  apply PassoDe_get_clientes.
  destruct (filtrar_cliente k (b_clientes b0)) as [[i cliente]|];
    [|apply Neutro_PassoDe; neutro].
  apply PassoDe_bind_neutro; [neutro|]. intros texto.
  destruct (parse_float texto) as [valor|]; [|apply Neutro_PassoDe; neutro].
  destruct (valor <=? 0)%float; [apply Neutro_PassoDe; neutro|].
  apply PassoDe_bind_neutro; [apply Neutro_recuperar|]. intros [ref|].
  - apply PassoDe_bind_then; [apply PassoDe_realizar|]. intros _. neutro.
  - apply Neutro_PassoDe. neutro.
Qed.

Lemma gerar_relatorio_readonly (k : option string) (w : Mundo) :
  conta (snd (Historico.gerar_relatorio k w)) = conta w.
Proof. reflexivity. Qed.

Lemma Neutro_exibir_extrato_func : Neutro Sistema.exibir_extrato_func.
Proof.
  unfold Sistema.exibir_extrato_func.
  apply Neutro_bind; [neutro|]. intros k.
  apply Neutro_bind; [neutro|]. intros clientes.
  destruct (filtrar_cliente k clientes) as [[i cliente]|]; [|neutro].
  apply Neutro_bind; [apply Neutro_recuperar|]. intros [ref|]; [|neutro].
  apply Neutro_bind; [neutro|]. intros _.
  apply Neutro_bind;
    [apply Neutro_na_conta; intros w; apply gerar_relatorio_readonly|].
  intros ts.
  apply Neutro_bind; [neutro|]. intros _.
  apply Neutro_bind; [apply Neutro_na_conta; reflexivity|]. intros s.
  neutro.
Qed.

Lemma Neutro_imprime_contas (cs : list Conta) (acc : Sh unit) :
  Neutro acc -> Neutro (fold_left Sistema.imprime_conta cs acc).
Proof.
  revert acc. induction cs as [|c cs IH]; intros acc Hacc; simpl.
  - exact Hacc.
  - apply IH. unfold Sistema.imprime_conta.
    apply Neutro_bind; [exact Hacc|]. intros _. neutro.
Qed.

Lemma Neutro_listar_contas : Neutro Sistema.listar_contas.
Proof.
  unfold Sistema.listar_contas.
  apply Neutro_bind; [neutro|]. intros cs.
  apply Neutro_bind; [apply Neutro_imprime_contas; neutro|]. intros _.
  neutro.
Qed.

Lemma contem_remove_char (c : ascii) (s : string) :
  contem c (remove_char c s) = false.
Proof.
  induction s as [|a r IH]; simpl; [reflexivity|].
  destruct (Ascii.eqb a c) eqn:Ha; simpl; [exact IH|].
  now rewrite Ha.
Qed.

Lemma contem_remove_other (c d : ascii) (s : string) :
  contem c s = false -> contem c (remove_char d s) = false.
Proof.
  induction s as [|a r IH]; simpl; [reflexivity|].
  intros H. apply orb_false_iff in H. destruct H as [Ha Hr].
  destruct (Ascii.eqb a d); simpl; [now apply IH|].
  rewrite Ha. now apply IH.
Qed.

Lemma criar_cliente_func_passo (b0 : Banco) :
  PassoDe b0 Sistema.criar_cliente_func.
Proof.
  unfold Sistema.criar_cliente_func.
  apply PassoDe_bind_neutro; [neutro|]. intros linha.
  apply PassoDe_get_clientes.
  destruct (filtrar_cliente _ (b_clientes b0)) as [[i cliente]|] eqn:Hf;
    [apply Neutro_PassoDe; neutro|].
  apply PassoDe_bind_neutro; [neutro|]. intros nome.
  apply PassoDe_bind_neutro; [neutro|]. intros data.
  apply PassoDe_bind_neutro; [neutro|]. intros ender.
  apply PassoDe_bind_then; [|intros _; neutro].
  intros b (Hc & Ha & Hr & He). split; [|split]; simpl; auto.
  apply (ef_cliente b0 _
           {| como_cliente := {| endereco := ender; contas := [] |};
              nome := nome; data_nascimento := data;
              cpf := remove_char "-" (remove_char "." (str_strip linha)) |});
    simpl; auto; try congruence.
  - apply contem_remove_other, contem_remove_char.
  - apply contem_remove_char.
Qed.

Lemma criar_conta_func_passo (b0 : Banco) :
  PassoDe b0
    (Sistema.criar_conta_func (Z.of_nat (List.length (b_contas b0)) + 1)).
Proof.
  unfold Sistema.criar_conta_func.
  apply PassoDe_bind_neutro; [neutro|]. intros k.
  apply PassoDe_get_clientes.
  pose proof (filtrar_cliente_spec k (b_clientes b0)) as Hspec.
  destruct (filtrar_cliente k (b_clientes b0)) as [[i cliente]|];
    [|apply Neutro_PassoDe; neutro].
  destruct Hspec as (Hn & _).
  intros b (Hc & Ha & Hr & He).
  unfold sh_bind, append_conta, adicionar_conta_em, escreve. simpl.
  rewrite Hc, Ha, Hn.
  split; [|split]; simpl; auto.
  eapply (ef_conta b0 _ i cliente); simpl; auto.
Qed.

Lemma despacho_passo (b0 : Banco) (opcao : string) :
  PassoDe b0 (Sistema.despacho opcao).
Proof.
  unfold Sistema.despacho.
  destruct (String.eqb opcao "d").
  { apply PassoDe_bind_then; [|intros _; neutro].
    apply log_transacao_passo, transacao_func_passo. }
  destruct (String.eqb opcao "s").
  { apply PassoDe_bind_then; [|intros _; neutro].
    apply log_transacao_passo, transacao_func_passo. }
  destruct (String.eqb opcao "e").
  { apply PassoDe_bind_then; [|intros _; neutro].
    apply log_transacao_passo, Neutro_PassoDe, Neutro_exibir_extrato_func. }
  destruct (String.eqb opcao "nu").
  { apply PassoDe_bind_then; [|intros _; neutro].
    apply log_transacao_passo, criar_cliente_func_passo. }
  destruct (String.eqb opcao "nc").
  { apply PassoDe_get_contas.
    apply PassoDe_bind_then; [|intros _; neutro].
    apply log_transacao_passo, criar_conta_func_passo. }
  destruct (String.eqb opcao "lc").
  { apply Neutro_PassoDe. apply Neutro_bind; [|intros _; neutro].
    apply Neutro_listar_contas. }
  destruct (String.eqb opcao "q"); apply Neutro_PassoDe; neutro.
Qed.

(** One turn of the menu is a step, and a turn that does not end in an
    exception has read at least one line. *)
Lemma turno_passo (b : Banco) :
  Passo b (snd (Sistema.turno b)) /\
  (forall x, fst (Sistema.turno b) = Some x ->
             (List.length (b_entrada (snd (Sistema.turno b)))
              < List.length (b_entrada b))%nat).
Proof.
  unfold Sistema.turno, Sistema.menu, sh_bind, input, sh_ret.
  destruct (b_entrada b) as [|linha resto] eqn:He; simpl.
  - split; [apply mesmos_Passo, mesmos_refl|discriminate].
  - set (b1 := {| b_clientes := b_clientes b; b_contas := b_contas b;
                  b_relogio := b_relogio b; b_tique := b_tique b;
                  b_saida := b_saida b; b_entrada := resto |}).
    pose proof (despacho_passo b1 (str_lower (str_strip linha)) b1
                  (mesmos_refl b1)) as (H1 & H2 & H3).
    split.
    + split; [|split].
      * destruct H1
          as [H1 H4|i cl t w H1 H4 H5 H6|p H1 H4 H5 H6 H7 H8|i p H1 H4 H5].
        -- now apply ef_nada.
        -- now apply (ef_transacao b _ i cl t w).
        -- now apply (ef_cliente b _ p).
        -- now apply (ef_conta b _ i p).
      * exact H2.
      * rewrite He. simpl in *. lia.
    + intros x _. simpl in *. lia.
Qed.

(** A property of the clients and accounts that every step keeps holds
    when [main] ends, however it ends. *)
Lemma main_loop_invariant (P : list PessoaFisica -> list Conta -> Prop) :
  (forall b b', P (b_clientes b) (b_contas b) -> Efeito b b' ->
                P (b_clientes b') (b_contas b')) ->
  forall fuel b,
    P (b_clientes b) (b_contas b) ->
    P (b_clientes (snd (Sistema.main_loop fuel b)))
      (b_contas (snd (Sistema.main_loop fuel b))).
Proof.
  intros Hstep fuel. induction fuel as [|fuel IH]; intros b Hb; simpl.
  - exact Hb.
  - destruct (turno_passo b) as ((He & _) & _).
    destruct (Sistema.turno b) as [[[|]|] b1]; simpl in *; eauto.
Qed.

Lemma main_invariant (P : list PessoaFisica -> list Conta -> Prop) :
  P [] [] ->
  (forall b b', P (b_clientes b) (b_contas b) -> Efeito b b' ->
                P (b_clientes b') (b_contas b')) ->
  forall r entrada,
    P (b_clientes (snd (Sistema.main r entrada)))
      (b_contas (snd (Sistema.main r entrada))).
Proof.
  intros H0 Hstep r entrada. unfold Sistema.main.
  now apply main_loop_invariant.
Qed.



(** X10.  In every run of [main], the accounts are numbered by their position
    in the list of accounts, from 1 on, and each is a current account with
    the limit of 500.00 a withdrawal and 3 withdrawals a day. *)
Theorem main_accounts_numbered (r : nat -> datetime)
  (entrada : list string) (i : nat) (c : Conta) :
  nth_error (b_contas (snd (Sistema.main r entrada))) i = Some c ->
  numero c = (Z.of_nat i + 1)%Z /\ classe c = ClasseContaCorrente 500 3.
Proof.
  revert i c.
  apply (main_invariant
           (fun _ cs => forall i c, nth_error cs i = Some c ->
                        numero c = (Z.of_nat i + 1)%Z /\
                        classe c = ClasseContaCorrente 500 3)).
  - intros [|i] c H; discriminate.
  - intros b b' HP He j c.
    destruct He
      as [H1 H2|i cl t w H1 H2 H3 H4|p H1 H2 H3 H4 H5 H6|i p H1 H2 H3].
    + rewrite H2. apply HP.
    + rewrite H4, atualiza_nth_error.
      destruct (j =? i)%nat eqn:Hj; [|apply HP].
      apply Nat.eqb_eq in Hj. subst j. rewrite H1. intros Hc.
      injection Hc as <-.
      destruct (realizar_transacao_cases cl t w) as (_ & Hn & Hc & _).
      rewrite Hn, Hc. now apply HP.
    + rewrite H6. apply HP.
    + rewrite H3. intros Hc.
      destruct (Nat.lt_ge_cases j (List.length (b_contas b))) as [Hlt|Hge].
      * rewrite nth_error_app1 in Hc by exact Hlt. now apply HP.
      * rewrite nth_error_app2 in Hc by exact Hge.
        destruct (j - List.length (b_contas b))%nat as [|[|n]] eqn:Hd;
          simpl in Hc; try discriminate.
        injection Hc as <-. simpl. split; [|reflexivity].
        f_equal. lia.
Qed.

Lemma map_cpf_atualiza (l : list PessoaFisica) (i : nat)
  (p : PessoaFisica) (ref : Z) :
  nth_error l i = Some p ->
  map cpf (atualiza i (PessoaFisica_adicionar_conta p ref) l) = map cpf l.
Proof.
  revert i. induction l as [|a l IH]; intros [|i] H; simpl in *;
    try discriminate.
  - now injection H as ->.
  - now rewrite IH.
Qed.

(** X11.  In every run of [main], no two clients have the same CPF. *)
Theorem main_cpf_unique (r : nat -> datetime) (entrada : list string) :
  NoDup (map cpf (b_clientes (snd (Sistema.main r entrada)))).
Proof.
  apply (main_invariant (fun cls _ => NoDup (map cpf cls))).
  - constructor.
  - intros b b' HP He.
    destruct He
      as [H1 H2|i cl t w H1 H2 H3 H4|p H1 H2 H3 H4 H5 H6|i p H1 H2 H3].
    + now rewrite H1.
    + now rewrite H3.
    + rewrite H5, map_app. simpl. apply NoDup_app; auto.
      * constructor; [intros []|constructor].
      * intros k Hin [<-|[]]. apply in_map_iff in Hin.
        destruct Hin as (c & Hc & Hin).
        pose proof (filtrar_cliente_spec (cpf p) (b_clientes b)) as Hs.
        rewrite H1 in Hs. now apply (Hs c).
    + rewrite H2. now rewrite (map_cpf_atualiza _ _ _ _ H1).
Qed.

Lemma Add_app_l {A : Type} (x : A) (l0 l l' : list A) :
  Add x l l' -> Add x (l0 ++ l) (l0 ++ l').
Proof.
  intros H. induction l0 as [|a l0 IH]; simpl; [exact H|].
  now constructor.
Qed.

Lemma referencias_Add (l : list PessoaFisica) (i : nat) (p : PessoaFisica)
  (ref : Z) :
  nth_error l i = Some p ->
  Add ref (referencias l)
    (referencias (atualiza i (PessoaFisica_adicionar_conta p ref) l)).
Proof.
  unfold referencias.
  revert i. induction l as [|a l IH]; intros [|i] H; simpl in *;
    try discriminate.
  - injection H as ->. rewrite <- app_assoc. simpl. apply Add_app.
  - apply Add_app_l. now apply IH.
Qed.

(** X12.  In every run of [main], the references to accounts held by the
    clients are exactly the accounts of the list, each held once: every
    account belongs to one client and to one only. *)
Theorem main_accounts_owned_once (r : nat -> datetime)
  (entrada : list string) :
  let b := snd (Sistema.main r entrada) in
  NoDup (referencias (b_clientes b)) /\
  forall ref, In ref (referencias (b_clientes b)) <->
              (1 <= ref <= Z.of_nat (List.length (b_contas b)))%Z.
Proof.
  apply (main_invariant
           (fun cls cs =>
              NoDup (referencias cls) /\
              forall ref, In ref (referencias cls) <->
                          (1 <= ref <= Z.of_nat (List.length cs))%Z)).
  - split; [constructor|]. intros ref. simpl. lia.
  - intros b b' [HN HI] He.
    destruct He
      as [H1 H2|i cl t w H1 H2 H3 H4|p H1 H2 H3 H4 H5 H6|i p H1 H2 H3].
    + rewrite H1, H2. auto.
    + rewrite H3, H4, atualiza_length. auto.
    + rewrite H5, H6. unfold referencias in *.
      rewrite map_app, concat_app. simpl. rewrite H2. simpl.
      rewrite app_nil_r. auto.
    + rewrite H2, H3, length_app. simpl.
      pose proof (referencias_Add (b_clientes b) i p
                    (Z.of_nat (S (List.length (b_contas b)))) H1) as HA.
      split.
      * apply (NoDup_Add HA). split; [exact HN|].
        intros Hin. apply HI in Hin. lia.
      * intros ref. rewrite (Add_in HA). simpl. rewrite HI. lia.
Qed.

Lemma Forall_atualiza {A : Type} (P : A -> Prop) (l : list A) (i : nat)
  (x : A) :
  Forall P l -> P x -> Forall P (atualiza i x l).
Proof.
  intros Hl Hx. revert i. induction Hl as [|a l Ha Hl IH]; intros [|i];
    simpl; auto.
Qed.

(** X13.  In every run of [main], whatever is typed, no account has a balance
    below zero. *)
Theorem main_saldo_never_negative (r : nat -> datetime)
  (entrada : list string) :
  Forall (fun c => negativo (saldo c) = false)
    (b_contas (snd (Sistema.main r entrada))).
Proof.
  apply (main_invariant
           (fun _ cs => Forall (fun c => negativo (saldo c) = false) cs)).
  - constructor.
  - intros b b' HP He.
    destruct He
      as [H1 H2|i cl t w H1 H2 H3 H4|p H1 H2 H3 H4 H5 H6|i p H1 H2 H3].
    + now rewrite H2.
    + rewrite H4. apply Forall_atualiza; [exact HP|].
      apply (executar_keeps_sign (OpRealizar cl t) w).
      rewrite Forall_forall in HP. apply HP.
      eapply nth_error_In, H1.
    + now rewrite H6.
    + rewrite H3. apply Forall_app. split; [exact HP|].
      constructor; [reflexivity|constructor].
Qed.


(** X15.  The statement and the listing of the accounts change no client and no
    account. *)
Theorem statement_and_listing_change_nothing (b : Banco) :
  (b_clientes (snd (Sistema.exibir_extrato b)) = b_clientes b /\
   b_contas (snd (Sistema.exibir_extrato b)) = b_contas b) /\
  (b_clientes (snd (Sistema.listar_contas b)) = b_clientes b /\
   b_contas (snd (Sistema.listar_contas b)) = b_contas b).
Proof.
  assert (H1 : Neutro Sistema.exibir_extrato).
  { unfold Sistema.exibir_extrato, Sistema.log_transacao.
    apply Neutro_bind; [apply Neutro_exibir_extrato_func|]. intros a.
    neutro. }
  destruct (H1 b) as (Ha & Hb & _).
  destruct (Neutro_listar_contas b) as (Hc & Hd & _).
  auto.
Qed.

Lemma transacao_cmd_alvo (nome_func : string) (nova : float -> Transacao)
  (b : Banco) :
  let b' := snd (Sistema.log_transacao nome_func
                   (Sistema.transacao_func nova) b) in
  b_clientes b' = b_clientes b /\
  List.length (b_contas b') = List.length (b_contas b) /\
  forall j,
    nth_error (b_contas b') j <> nth_error (b_contas b) j ->
    exists k texto resto i cl ref refs valor,
      b_entrada b = k :: texto :: resto /\
      filtrar_cliente k (b_clientes b) = Some (i, cl) /\
      contas (como_cliente cl) = ref :: refs /\
      posicao ref = Some j /\
      parse_float texto = Some valor /\ (valor <=? 0)%float = false.
Proof.
  unfold Sistema.log_transacao, Sistema.transacao_func,
    Sistema.recuperar_conta_cliente.
  unfold sh_bind, input, get_clientes, escreve, agora_sh, sh_ret.
  destruct (b_entrada b) as [|k resto] eqn:He; simpl;
    [repeat split; auto; intros j Hj; now elim Hj|].
  destruct (filtrar_cliente k (b_clientes b)) as [[i cl]|] eqn:Hf; simpl;
    [|repeat split; auto; intros j Hj; now elim Hj].
  destruct resto as [|texto resto']; simpl;
    [repeat split; auto; intros j Hj; now elim Hj|].
  destruct (parse_float texto) as [valor|] eqn:Hp; simpl;
    [|repeat split; auto; intros j Hj; now elim Hj].
  destruct (valor <=? 0)%float eqn:Hv; simpl;
    [repeat split; auto; intros j Hj; now elim Hj|].
  destruct (contas (como_cliente cl)) as [|ref refs] eqn:Hc; simpl;
    [repeat split; auto; intros j Hj; now elim Hj|].
  rewrite na_conta_run. simpl.
  destruct (posicao ref) as [j0|] eqn:Hpos; simpl;
    [|repeat split; auto; intros j Hj; now elim Hj].
  destruct (nth_error (b_contas b) j0) as [c|] eqn:Hn; simpl;
    [|repeat split; auto; intros j Hj; now elim Hj].
  split; [reflexivity|]. split; [apply atualiza_length|].
  intros j Hj. rewrite atualiza_nth_error in Hj.
  destruct (j =? j0)%nat eqn:Hjj; [|now elim Hj].
  apply Nat.eqb_eq in Hjj. subst j0.
  exists k, texto, resto', i, cl, ref, refs, valor. auto 7.
Qed.

(** X16.  The commands [depositar] and [sacar] of the menu change no client and
    create no account, and an account they change is the first account of
    the client whose CPF was typed, the amount typed being a number that
    is not [<= 0]. *)
Theorem transaction_commands_target (b : Banco) (j : nat) :
  let alvo b' :=
    b_clientes b' = b_clientes b /\
    List.length (b_contas b') = List.length (b_contas b) /\
    (nth_error (b_contas b') j <> nth_error (b_contas b) j ->
     exists k texto resto i cl ref refs valor,
       b_entrada b = k :: texto :: resto /\
       filtrar_cliente k (b_clientes b) = Some (i, cl) /\
       contas (como_cliente cl) = ref :: refs /\
       posicao ref = Some j /\
       parse_float texto = Some valor /\ (valor <=? 0)%float = false) in
  alvo (snd (Sistema.depositar b)) /\ alvo (snd (Sistema.sacar b)).
Proof.
  cbv zeta. unfold Sistema.depositar, Sistema.sacar.
  destruct (transacao_cmd_alvo "depositar" Deposito b) as (H1 & H2 & H3).
  destruct (transacao_cmd_alvo "sacar" Saque b) as (H4 & H5 & H6).
  repeat split; auto.
Qed.

(** What [listar_contas] prints after each account (kept next to the
    lines already printed). *)
Lemma fold_imprime_conta (cs : list Conta) (acc : Sh unit) (b : Banco)
  (out : list Linha) :
  acc b = (Some tt, com_saida b out) ->
  fold_left Sistema.imprime_conta cs acc b
  = (Some tt,
     com_saida b
       (out ++ flat_map (fun c => [Separador; ContaStr c]) cs)).
Proof.
  revert acc out. induction cs as [|c cs IH]; intros acc out Hacc; simpl.
  - now rewrite app_nil_r.
  - rewrite (IH _ (out ++ [Separador; ContaStr c])).
    + now rewrite <- app_assoc.
    + unfold Sistema.imprime_conta, sh_bind. rewrite Hacc.
      unfold escreve, com_saida. simpl. now rewrite <- !app_assoc.
Qed.

(** X17.  [listar_contas] prints, for each account of the list and in the order
    of the list, a separator and the text of the account; for an empty
    list it prints the line that says there are no accounts.  It never
    fails. *)
Theorem listar_contas_prints_every_account (b : Banco) :
  Sistema.listar_contas b
  = (Some tt,
     com_saida b
       (flat_map (fun c => [Separador; ContaStr c]) (b_contas b)
        ++ match b_contas b with [] => [SemContas] | _ :: _ => [] end)).
Proof.
  unfold Sistema.listar_contas, sh_bind at 1 2. unfold get_contas at 1.
  unfold ContasIterador_init. rewrite percorrer_from. simpl skipn.
  rewrite firstn_all2 by lia.
  rewrite (fold_imprime_conta (b_contas b) (sh_ret tt) b []).
  - simpl. destruct (b_contas b) as [|c cs]; unfold escreve, sh_ret, com_saida;
      simpl; rewrite ?app_nil_r; reflexivity.
  - unfold sh_ret, com_saida. rewrite app_nil_r. now destruct b.
Qed.

End Menu.


(** The first account of a run that creates a client and an account. *)
Lemma main_accounts_numbered_witness :
  let entrada := ["nu"; "1"; "Ana"; "01-01-1990"; "Rua A"; "nc"; "1";
                  "q"]%string in
  let b := snd (Sistema.main (L := RefLib.lib) (T := RefShell.lib)
                  RefLib.relogio_parado entrada) in
  nth_error (b_contas b) 0 = Some (ContaCorrente_init 1 500 3) /\
  numero (ContaCorrente_init 1 500 3) = (Z.of_nat 0 + 1)%Z /\
  classe (ContaCorrente_init 1 500 3) = ClasseContaCorrente 500 3.
Proof.
  intros entrada b. split; [reflexivity|].
  exact (main_accounts_numbered (L := RefLib.lib) (T := RefShell.lib)
           RefLib.relogio_parado entrada 0 (ContaCorrente_init 1 500 3)
           eq_refl).
Defined.

(** A statement asked for before any movement. *)
Lemma Script_statement_empty_iff_no_movement_witness :
  Script.impresso
    (snd (Script.main (L := RefLib.lib) (T := RefShell.lib)
            ["e"; "q"]%string))
  = [] ++ Script.SExtrato None 0 :: [Script.SDespedida] /\
  ((None : option string) = None <->
   existsb Script.eh_movimento [] = false).
Proof.
  split; [reflexivity|].
  exact (Script_statement_empty_iff_no_movement (L := RefLib.lib)
           (T := RefShell.lib) ["e"; "q"]%string [] None 0
           [Script.SDespedida] eq_refl).
Defined.

(** ** Runs of the two programs on the reference libraries *)
Module ExemplosMenu.

(** A client, an account, a deposit, a withdrawal above the limit, one
    within it, the statement and the listing. *)
Example menu_session :
  let r := Sistema.main (L := RefLib.lib) (T := RefShell.lib)
             RefLib.relogio_parado
             ["nu"; "123.456.789-00"; "Ana"; "01-01-1990"; "Rua A";
              "nc"; "12345678900";
              "d"; "12345678900"; "1000";
              "s"; "12345678900"; "600";
              "S "; "12345678900"; "250.5";
              "d"; "12345678900"; "1";
              "d"; "123.456.789-00";
              "x"; "q"]%string in
  fst r = Sistema.Saiu /\
  map cpf (b_clientes (snd r)) = ["12345678900"%string] /\
  map (fun p => contas (como_cliente p)) (b_clientes (snd r)) = [[1%Z]] /\
  map saldo (b_contas (snd r)) = [749.5%float] /\
  map (fun c => map tipo (historico c)) (b_contas (snd r))
  = [["Deposito"; "Saque"]%string] /\
  filter (fun l => match l with Log _ _ => false | _ => true end)
    (b_saida (snd r))
  = [ClienteCriado; ContaCriada; DaConta MsgDepositoRealizado;
     DaConta MsgExcedeLimite; DaConta MsgSaqueRealizado;
     DaConta MsgExcedeTransacoes; ClienteNaoEncontrado; OperacaoInvalida;
     Despedida].
Proof. vm_compute. repeat split. Qed.

(** The input ending inside a command: the run ends by the exception and
    the client is not created. *)
Example menu_end_of_input :
  let r := Sistema.main (L := RefLib.lib) (T := RefShell.lib)
             RefLib.relogio_parado ["nu"; "1"; "Ana"]%string in
  fst r = Sistema.Excecao /\ b_clientes (snd r) = [] /\ b_saida (snd r) = [].
Proof. vm_compute. repeat split. Qed.

(** The script: a deposit, two withdrawals (the second above the limit),
    a statement. *)
Example script_session :
  let r := Script.main (L := RefLib.lib) (T := RefShell.lib)
             ["D"; "1000"; "s"; "250.5"; "s"; "600"; "e"; "x"; "q"]%string in
  fst r = Script.Saiu /\
  Script.saldo (snd r) = 749.5%float /\
  Script.numero_saques (snd r) = 1%Z /\
  Script.impresso (snd r)
  = [Script.SMensagem MsgDepositoRealizado;
     Script.SMensagem MsgSaqueRealizado;
     Script.SMensagem MsgExcedeLimite;
     Script.SExtrato (Some (Script.extrato (snd r))) 749.5;
     Script.SOperacaoInvalida; Script.SDespedida].
Proof. vm_compute. repeat split. Qed.

(** An amount that is not a number ends the script. *)
Example script_value_error :
  fst (Script.main (L := RefLib.lib) (T := RefShell.lib)
         ["d"; "mil"]%string) = Script.ValueError.
Proof. reflexivity. Qed.

End ExemplosMenu.
